(** * The job-part plan file, the transfer dispatcher and the job status
      manager of the storage transfer engine (package [ste])

    A shallow embedding of
    - the plan-file accessors ([JobPartPlanHeader.Transfer],
      [JobPartPlanHeader.TransferSrcDstStrings],
      [JobPartPlanTransfer.TransferStatus] and [SetTransferStatus]),
    - [computeJobXfer] of [ste/xfer.go],
    - both revisions of [ste/jobStatusManager.go]: the one that exports
      [SendJobPartCreatedMsg], [SendXferDoneMsg], [ListJobSummary] and
      [ResurrectSummary] over a summary held by value (module [SendMsg]), and
      the one that exports [InitStatusMgr], [SMUpdateJobpartCreated],
      [SMUpdateXferDone] and [ListJobSummary] over a summary held through a
      pointer (module [SMUpdate]).

    Machine integers are [Z] with the wrap-around of their width written
    out; Go strings are byte sequences; a panic is a value of [outcome]. *)

From Stdlib Require Import ZArith List Bool String Lia Permutation.
From Stdlib.Strings Require Import Byte.
Import ListNotations.

#[local] Open Scope Z_scope.

(** ** Go runtime: outcomes of a call, machine integers *)

Module Go.

(** How a call can end other than by returning. *)
Inductive failure : Type :=
| PanicError (msg : string)          (* panic(errors.New(msg)) *)
| PanicErrorf (format arg : string)  (* panic(fmt.Errorf(format, arg)) *)
| PanicNilDeref                      (* field access through a nil pointer *)
| FaultAddress (addr : Z)            (* load from an address that is not mapped *)
| FaultLength (len : Z).             (* string built from a negative length *)

Inductive outcome (A : Type) : Type :=
| Ok (a : A)
| Crash (f : failure).

Arguments Ok {A} a.
Arguments Crash {A} f.

Definition bind {A B : Type} (x : outcome A) (k : A -> outcome B) : outcome B :=
  match x with
  | Ok a => k a
  | Crash f => Crash f
  end.

Definition is_Ok {A : Type} (x : outcome A) : bool :=
  match x with Ok _ => true | Crash _ => false end.

(** Unsigned wrap-around at [w] bits and the signed reading of a [w]-bit
    pattern (two's complement). *)
Definition wrap (w : Z) (z : Z) : Z := z mod 2 ^ w.

Definition signed (w : Z) (u : Z) : Z :=
  if u <? 2 ^ (w - 1) then u else u - 2 ^ w.

Definition uint32 (z : Z) : Z := wrap 32 z.
Definition uint64 (z : Z) : Z := wrap 64 z.
(** [uintptr] on the 64-bit platforms the engine is built for. *)
Definition uintptr (z : Z) : Z := wrap 64 z.

End Go.

Import Go.

Declare Scope go_scope.
Delimit Scope go_scope with go.
Notation "x <- c1 ;; c2" := (Go.bind c1 (fun x => c2))
  (at level 61, c1 at next level, right associativity) : go_scope.

(** ** Package [common]: what the [ste] sources take from it

    The package is imported by every file embedded here, and none of its
    declarations is among the sources. *)

Module common.

(** [common.TransferStatus]: a 32-bit integer ([Value int32]). *)
Definition TransferStatus : Type := Z.

(** [common.FromTo]: an integer code of a (source, destination) pair. *)
Definition FromTo : Type := Z.

(** Modelled from the spec: the enumerators of [common.TransferStatus] are
    declared outside the sources.  The status manager compares a status
    with six of them ("success", the three failure variants "generic
    failure, tier-availability-check failure, blob-tier failure", the two
    skip variants "already-exists, has-snapshots"); their numeric values
    are left open, they are only known to be six different values. *)
Class ETransferStatus : Type := {
  Success : TransferStatus;
  Failed : TransferStatus;
  TierAvailabilityCheckFailure : TransferStatus;
  BlobTierFailure : TransferStatus;
  SkippedEntityAlreadyExists : TransferStatus;
  SkippedBlobHasSnapshots : TransferStatus;
  ETransferStatus_distinct :
    NoDup [Success; Failed; TierAvailabilityCheckFailure; BlobTierFailure;
           SkippedEntityAlreadyExists; SkippedBlobHasSnapshots]
}.

(** Modelled from the spec: the enumerators of [common.FromTo] and its
    [String] method are declared outside the sources.  The dispatcher's
    input domain has "at minimum: cloud-object-store -> local filesystem,
    local filesystem -> cloud-object-store, cloud-file-share -> local
    filesystem, local filesystem -> cloud-file-share"; the four codes are
    different values, otherwise left open. *)
Class EFromTo : Type := {
  BlobLocal : FromTo;
  LocalBlob : FromTo;
  FileLocal : FromTo;
  LocalFile : FromTo;
  FromTo_String : FromTo -> string;
  EFromTo_distinct : NoDup [BlobLocal; LocalBlob; FileLocal; LocalFile]
}.

(** [common.Iffint32]: the conditional on [int32]. *)
Definition Iffint32 (test : bool) (trueVal falseVal : Z) : Z :=
  if test then trueVal else falseVal.

(** [atomic.CompareAndSwapInt32]: the new contents of the cell and whether
    the swap took place. *)
Definition CompareAndSwapInt32 (cell old new : Z) : Z * bool :=
  if cell =? old then (new, true) else (cell, false).

(** Modelled from the spec: [common.AtomicMorphInt32] is declared outside
    the sources.  It is "a compare-and-swap retry loop: read current value;
    ... attempt to atomically replace current with [the morphed value];
    retry on contention".  [others] lists what other workers store into the
    cell between this call's load and its compare-and-swap, one entry per
    attempt that meets contention; when the list is used up nobody
    interferes, the swap takes place, and the loop ends (the [false] arm of
    the last swap cannot be taken: the cell still holds the value just
    loaded).  It returns the cell's new contents with the morpher's
    result. *)
Fixpoint AtomicMorphInt32 {R : Type} (others : list (Z -> Z)) (target : Z)
    (morpher : Z -> Z * R) : Z * R :=
  let currentVal := target in
  let '(desiredVal, morphResult) := morpher currentVal in
  match others with
  | [] =>
      let '(target', _) := CompareAndSwapInt32 target currentVal desiredVal in
      (target', morphResult)
  | w :: others' =>
      let '(target', swapped) :=
        CompareAndSwapInt32 (w target) currentVal desiredVal in
      if swapped then (target', morphResult)
      else AtomicMorphInt32 others' target' morpher
  end.

End common.

(** ** The job-part plan file (the plan header, its transfers and their
       strings, read through raw addresses) *)

Module Plan.

Import common.

(** The process's memory as the accessors see it: what a one-byte load at
    an address yields, [None] where nothing is mapped. *)
Definition AddressSpace : Type := Z -> option byte.

(** [common.MMF], a byte slice over the mapped file: the address of its
    first byte and its length. *)
Record JobPartPlanMMF : Type := mkMMF {
  Data : Z;
  Len : Z
}.

(** [mmf.Plan()]: the slice's address cast to a header pointer. *)
Definition Plan (mmf : JobPartPlanMMF) : Z := Data mmf.

(** The addresses [addr .. addr + n - 1] lie inside the mapped file. *)
Definition in_region (mmf : JobPartPlanMMF) (addr n : Z) : Prop :=
  Data mmf <= addr /\ addr + n <= Data mmf + Len mmf.

Definition in_regionb (mmf : JobPartPlanMMF) (addr n : Z) : bool :=
  (Data mmf <=? addr) && (addr + n <=? Data mmf + Len mmf).

(** [n] bytes loaded from consecutive addresses, lowest first; address
    arithmetic is [uintptr] arithmetic. *)
Fixpoint load_bytes (m : AddressSpace) (addr : Z) (n : nat) : outcome (list byte) :=
  match n with
  | O => Ok []
  | S k =>
      match m (uintptr addr) with
      | None => Crash (FaultAddress (uintptr addr))
      | Some b =>
          (bs <- load_bytes m (addr + 1) k ;; Ok (b :: bs))%go
      end
  end.

(** Little-endian reading of a byte sequence as an unsigned integer. *)
Fixpoint le_unsigned (bs : list byte) : Z :=
  match bs with
  | [] => 0
  | b :: bs' => Z.of_N (Byte.to_N b) + 256 * le_unsigned bs'
  end.

Definition load_int (m : AddressSpace) (addr : Z) (nbytes : nat) : outcome Z :=
  (bs <- load_bytes m addr nbytes ;;
   Ok (signed (8 * Z.of_nat nbytes) (le_unsigned bs)))%go.

(** [JobPartPlanDstBlob] and [JobPartPlanDstLocal]: destination settings,
    each byte array with the length of its used prefix. *)
Definition ContentTypeMaxBytes : Z := 256.
Definition ContentEncodingMaxBytes : Z := 256.
Definition MetadataMaxBytes : Z := 1000.
Definition BlobTierMaxBytes : Z := 10.

Record JobPartPlanDstBlob : Type := mkDstBlob {
  NoGuessMimeType : bool;
  ContentTypeLength : Z;
  ContentType : list byte;
  ContentEncodingLength : Z;
  ContentEncoding : list byte;
  BlockBlobTierLength : Z;
  BlockBlobTier : list byte;
  PageBlobTierLength : Z;
  PageBlobTier : list byte;
  MetadataLength : Z;
  Metadata : list byte;
  BlockSize : Z
}.

Record JobPartPlanDstLocal : Type := mkDstLocal {
  PreserveLastModifiedTime : bool
}.

(** [JobPartPlanHeader]: the header's fields as read at the head of the
    mapped file. *)
Record JobPartPlanHeader : Type := mkHeader {
  Version : Z;
  JobID : Z;
  PartNum : Z;
  IsFinalPart : bool;
  Priority : Z;
  TTLAfterCompletion : Z;
  FromTo : common.FromTo;
  NumTransfers : Z;              (* uint32 *)
  LogLevel : Z;
  DstBlobData : JobPartPlanDstBlob;
  DstLocalData : JobPartPlanDstLocal;
  atomicJobStatus : Z            (* uint32 *)
}.

(** [JobStatus] and [SetJobStatus]: atomic load and store of the status
    word. *)
Definition JobStatus (h : JobPartPlanHeader) : Z := atomicJobStatus h.

Definition SetJobStatus (status : Z) (h : JobPartPlanHeader) : JobPartPlanHeader :=
  mkHeader (Version h) (JobID h) (PartNum h) (IsFinalPart h) (Priority h)
    (TTLAfterCompletion h) (FromTo h) (NumTransfers h) (LogLevel h)
    (DstBlobData h) (DstLocalData h) status.

(** [JobPartPlanTransfer]: one transfer's record. *)
Record JobPartPlanTransfer : Type := mkTransfer {
  SrcOffset : Z;                 (* int64 *)
  SrcLength : Z;                 (* int16 *)
  DstLength : Z;                 (* int16 *)
  ModifiedTime : Z;              (* int64 *)
  SourceSize : Z;                (* int64 *)
  CompletionTime : Z;            (* uint64 *)
  atomicTransferStatus : TransferStatus
}.

(** The record's layout under Go's alignment rules on a 64-bit platform:
    [SrcOffset] at 0, [SrcLength] at 8, [DstLength] at 10, four bytes of
    padding, [ModifiedTime] at 16, [SourceSize] at 24, [CompletionTime] at
    32, the status word at 40, four bytes of padding. *)
Definition offsetof_SrcOffset : Z := 0.
Definition offsetof_SrcLength : Z := 8.
Definition offsetof_DstLength : Z := 10.
Definition sizeof_JobPartPlanTransfer : Z := 48.

(** The size of the header struct ([unsafe.Sizeof] of it): it depends on
    the layout of [common.Version], [common.JobID] and the other [common]
    types, which are declared outside the sources. *)
Class PlanLayout : Type := {
  sizeof_JobPartPlanHeader : Z;
  sizeof_JobPartPlanHeader_range : 0 <= sizeof_JobPartPlanHeader < 2 ^ 32
}.

Section Accessors.

Context {L : PlanLayout} {E : ETransferStatus}.

(** [jpph.Transfer(transferIndex)]: [jpph] is the header's address, [h] its
    fields. *)
Definition Transfer (jpph : Z) (h : JobPartPlanHeader) (transferIndex : Z)
    : outcome Z :=
  if NumTransfers h <=? transferIndex then
    Crash (PanicError "requesting a transfer index greater than what is available")
  else
    Ok (uintptr (uintptr (jpph + sizeof_JobPartPlanHeader)
                 + uintptr (sizeof_JobPartPlanTransfer * uintptr transferIndex))).

(** [string(slice)] for a slice header filled in by hand: the runtime
    copies [len] bytes from [data]; a negative length ends the program. *)
Definition slicebytetostring (m : AddressSpace) (data len : Z) : outcome (list byte) :=
  if len <? 0 then Crash (FaultLength len)
  else load_bytes m data (Z.to_nat len).

(** [jpph.TransferSrcDstStrings(transferIndex)]. *)
Definition TransferSrcDstStrings (m : AddressSpace) (jpph : Z)
    (h : JobPartPlanHeader) (transferIndex : Z) : outcome (list byte * list byte) :=
  (jppt <- Transfer jpph h transferIndex ;;
   (* srcSlice *)
   srcOffset <- load_int m (jppt + offsetof_SrcOffset) 8 ;;
   let srcData := uintptr (uintptr jpph + uintptr srcOffset) in
   srcLength <- load_int m (jppt + offsetof_SrcLength) 2 ;;
   let srcLen := srcLength in
   (* dstSlice *)
   srcOffset' <- load_int m (jppt + offsetof_SrcOffset) 8 ;;
   srcLength' <- load_int m (jppt + offsetof_SrcLength) 2 ;;
   let dstData :=
     uintptr (uintptr (uintptr jpph + uintptr srcOffset') + uintptr srcLength') in
   dstLength <- load_int m (jppt + offsetof_DstLength) 2 ;;
   let dstLen := dstLength in
   source <- slicebytetostring m srcData srcLen ;;
   destination <- slicebytetostring m dstData dstLen ;;
   Ok (source, destination))%go.

(** [jppt.TransferStatus()]. *)
Definition TransferStatus (jppt : JobPartPlanTransfer) : common.TransferStatus :=
  atomicTransferStatus jppt.

(** [jppt.SetTransferStatus(status)]; [others] is the contention the call
    meets (see [AtomicMorphInt32]), [[]] for a call that runs alone. *)
Definition SetTransferStatus (others : list (Z -> Z)) (status : common.TransferStatus)
    (jppt : JobPartPlanTransfer) : JobPartPlanTransfer :=
  let '(newVal, _) :=
    AtomicMorphInt32 others (atomicTransferStatus jppt)
      (fun startVal => (Iffint32 (startVal =? Failed) startVal status, tt)) in
  mkTransfer (SrcOffset jppt) (SrcLength jppt) (DstLength jppt)
    (ModifiedTime jppt) (SourceSize jppt) (CompletionTime jppt) newVal.

(** A sequence of [SetTransferStatus] calls on one record, one after the
    other. *)
Definition SetTransferStatus_seq (statuses : list common.TransferStatus)
    (jppt : JobPartPlanTransfer) : JobPartPlanTransfer :=
  fold_left (fun r status => SetTransferStatus [] status r) statuses jppt.

End Accessors.

End Plan.

(** ** [ste/xfer.go]: the transfer factory *)

Module Xfer.

Import common.

(** The transfer routines the factory hands out; they are declared in other
    files of the package and are opaque here. *)
Inductive xferRoutine : Type :=
| BlobToLocalPrologue
| LocalToBlockBlob.

(** [newJobXfer] is a function type; a value of it is one of the package's
    routines or [nil]. *)
Definition newJobXfer : Type := option xferRoutine.

Section Factory.

Context {F : EFromTo}.

(** [computeJobXfer(fromTo)]. *)
Definition computeJobXfer (fromTo : FromTo) : outcome newJobXfer :=
  if fromTo =? BlobLocal then Ok (Some BlobToLocalPrologue)
  else if fromTo =? LocalBlob then Ok (Some LocalToBlockBlob)
  else if fromTo =? FileLocal then Ok None (* TODO *)
  else if fromTo =? LocalFile then Ok None (* TODO *)
  else Crash (PanicErrorf "Unrecognized FromTo: %q" (FromTo_String fromTo)).

End Factory.

End Xfer.

(** ** The job summary and the messages that update it *)

Module Summary.

(** Modelled from the spec: [common.TransferDetail] and
    [common.ListJobSummaryResponse] are declared outside the sources.  The
    records have the fields the status manager reads and writes ("counts of
    total/completed/failed/skipped transfers, byte counters (enumerated vs.
    expected vs. transferred), a fully-enumerated flag, a timestamp, and
    two unbounded ordered lists of failure and skip detail records", the
    job id and the error message).  The counters updated from a message
    have the type of the message's field ([uint32] or [uint64]); the
    completed, failed and skipped counts are taken as [uint32], the transfer
    size and the transferred bytes as [uint64]. *)
Record TransferDetail : Type := mkDetail {
  Src : string;
  Dst : string;
  TransferStatus : common.TransferStatus;
  TransferSize : Z                          (* uint64 *)
}.

Record ListJobSummaryResponse : Type := mkSummary {
  Timestamp : Z;                             (* time.Time, as an instant *)
  JobID : Z;                                 (* common.JobID *)
  ErrorMsg : string;                         (* string *)
  CompleteJobOrdered : bool;                 (* bool *)
  TotalTransfers : Z;                        (* uint32 *)
  FileTransfers : Z;                         (* uint32 *)
  FolderPropertyTransfers : Z;               (* uint32 *)
  TransfersCompleted : Z;                    (* uint32 *)
  TransfersFailed : Z;                       (* uint32 *)
  TransfersSkipped : Z;                      (* uint32 *)
  TotalBytesEnumerated : Z;                  (* uint64 *)
  TotalBytesExpected : Z;                    (* uint64 *)
  TotalBytesTransferred : Z;                 (* uint64 *)
  FailedTransfers : list TransferDetail;     (* []TransferDetail *)
  SkippedTransfers : list TransferDetail     (* []TransferDetail *)
}.

(** Assignment to one field, [js.F = v]. *)
Definition set_Timestamp (v : Z) (js : ListJobSummaryResponse)
    : ListJobSummaryResponse :=
  mkSummary v (JobID js) (ErrorMsg js) (CompleteJobOrdered js)
    (TotalTransfers js) (FileTransfers js) (FolderPropertyTransfers js)
    (TransfersCompleted js) (TransfersFailed js) (TransfersSkipped js)
    (TotalBytesEnumerated js) (TotalBytesExpected js)
    (TotalBytesTransferred js) (FailedTransfers js) (SkippedTransfers js).

Definition set_JobID (v : Z) (js : ListJobSummaryResponse)
    : ListJobSummaryResponse :=
  mkSummary (Timestamp js) v (ErrorMsg js) (CompleteJobOrdered js)
    (TotalTransfers js) (FileTransfers js) (FolderPropertyTransfers js)
    (TransfersCompleted js) (TransfersFailed js) (TransfersSkipped js)
    (TotalBytesEnumerated js) (TotalBytesExpected js)
    (TotalBytesTransferred js) (FailedTransfers js) (SkippedTransfers js).

Definition set_ErrorMsg (v : string) (js : ListJobSummaryResponse)
    : ListJobSummaryResponse :=
  mkSummary (Timestamp js) (JobID js) v (CompleteJobOrdered js)
    (TotalTransfers js) (FileTransfers js) (FolderPropertyTransfers js)
    (TransfersCompleted js) (TransfersFailed js) (TransfersSkipped js)
    (TotalBytesEnumerated js) (TotalBytesExpected js)
    (TotalBytesTransferred js) (FailedTransfers js) (SkippedTransfers js).

Definition set_CompleteJobOrdered (v : bool) (js : ListJobSummaryResponse)
    : ListJobSummaryResponse :=
  mkSummary (Timestamp js) (JobID js) (ErrorMsg js) v (TotalTransfers js)
    (FileTransfers js) (FolderPropertyTransfers js) (TransfersCompleted js)
    (TransfersFailed js) (TransfersSkipped js) (TotalBytesEnumerated js)
    (TotalBytesExpected js) (TotalBytesTransferred js) (FailedTransfers js)
    (SkippedTransfers js).

Definition set_TotalTransfers (v : Z) (js : ListJobSummaryResponse)
    : ListJobSummaryResponse :=
  mkSummary (Timestamp js) (JobID js) (ErrorMsg js) (CompleteJobOrdered js) v
    (FileTransfers js) (FolderPropertyTransfers js) (TransfersCompleted js)
    (TransfersFailed js) (TransfersSkipped js) (TotalBytesEnumerated js)
    (TotalBytesExpected js) (TotalBytesTransferred js) (FailedTransfers js)
    (SkippedTransfers js).

Definition set_FileTransfers (v : Z) (js : ListJobSummaryResponse)
    : ListJobSummaryResponse :=
  mkSummary (Timestamp js) (JobID js) (ErrorMsg js) (CompleteJobOrdered js)
    (TotalTransfers js) v (FolderPropertyTransfers js) (TransfersCompleted js)
    (TransfersFailed js) (TransfersSkipped js) (TotalBytesEnumerated js)
    (TotalBytesExpected js) (TotalBytesTransferred js) (FailedTransfers js)
    (SkippedTransfers js).

Definition set_FolderPropertyTransfers (v : Z) (js : ListJobSummaryResponse)
    : ListJobSummaryResponse :=
  mkSummary (Timestamp js) (JobID js) (ErrorMsg js) (CompleteJobOrdered js)
    (TotalTransfers js) (FileTransfers js) v (TransfersCompleted js)
    (TransfersFailed js) (TransfersSkipped js) (TotalBytesEnumerated js)
    (TotalBytesExpected js) (TotalBytesTransferred js) (FailedTransfers js)
    (SkippedTransfers js).

Definition set_TransfersCompleted (v : Z) (js : ListJobSummaryResponse)
    : ListJobSummaryResponse :=
  mkSummary (Timestamp js) (JobID js) (ErrorMsg js) (CompleteJobOrdered js)
    (TotalTransfers js) (FileTransfers js) (FolderPropertyTransfers js) v
    (TransfersFailed js) (TransfersSkipped js) (TotalBytesEnumerated js)
    (TotalBytesExpected js) (TotalBytesTransferred js) (FailedTransfers js)
    (SkippedTransfers js).

Definition set_TransfersFailed (v : Z) (js : ListJobSummaryResponse)
    : ListJobSummaryResponse :=
  mkSummary (Timestamp js) (JobID js) (ErrorMsg js) (CompleteJobOrdered js)
    (TotalTransfers js) (FileTransfers js) (FolderPropertyTransfers js)
    (TransfersCompleted js) v (TransfersSkipped js) (TotalBytesEnumerated js)
    (TotalBytesExpected js) (TotalBytesTransferred js) (FailedTransfers js)
    (SkippedTransfers js).

Definition set_TransfersSkipped (v : Z) (js : ListJobSummaryResponse)
    : ListJobSummaryResponse :=
  mkSummary (Timestamp js) (JobID js) (ErrorMsg js) (CompleteJobOrdered js)
    (TotalTransfers js) (FileTransfers js) (FolderPropertyTransfers js)
    (TransfersCompleted js) (TransfersFailed js) v (TotalBytesEnumerated js)
    (TotalBytesExpected js) (TotalBytesTransferred js) (FailedTransfers js)
    (SkippedTransfers js).

Definition set_TotalBytesEnumerated (v : Z) (js : ListJobSummaryResponse)
    : ListJobSummaryResponse :=
  mkSummary (Timestamp js) (JobID js) (ErrorMsg js) (CompleteJobOrdered js)
    (TotalTransfers js) (FileTransfers js) (FolderPropertyTransfers js)
    (TransfersCompleted js) (TransfersFailed js) (TransfersSkipped js) v
    (TotalBytesExpected js) (TotalBytesTransferred js) (FailedTransfers js)
    (SkippedTransfers js).

Definition set_TotalBytesExpected (v : Z) (js : ListJobSummaryResponse)
    : ListJobSummaryResponse :=
  mkSummary (Timestamp js) (JobID js) (ErrorMsg js) (CompleteJobOrdered js)
    (TotalTransfers js) (FileTransfers js) (FolderPropertyTransfers js)
    (TransfersCompleted js) (TransfersFailed js) (TransfersSkipped js)
    (TotalBytesEnumerated js) v (TotalBytesTransferred js)
    (FailedTransfers js) (SkippedTransfers js).

Definition set_TotalBytesTransferred (v : Z) (js : ListJobSummaryResponse)
    : ListJobSummaryResponse :=
  mkSummary (Timestamp js) (JobID js) (ErrorMsg js) (CompleteJobOrdered js)
    (TotalTransfers js) (FileTransfers js) (FolderPropertyTransfers js)
    (TransfersCompleted js) (TransfersFailed js) (TransfersSkipped js)
    (TotalBytesEnumerated js) (TotalBytesExpected js) v (FailedTransfers js)
    (SkippedTransfers js).

Definition set_FailedTransfers (v : list TransferDetail) (js : ListJobSummaryResponse)
    : ListJobSummaryResponse :=
  mkSummary (Timestamp js) (JobID js) (ErrorMsg js) (CompleteJobOrdered js)
    (TotalTransfers js) (FileTransfers js) (FolderPropertyTransfers js)
    (TransfersCompleted js) (TransfersFailed js) (TransfersSkipped js)
    (TotalBytesEnumerated js) (TotalBytesExpected js)
    (TotalBytesTransferred js) v (SkippedTransfers js).

Definition set_SkippedTransfers (v : list TransferDetail) (js : ListJobSummaryResponse)
    : ListJobSummaryResponse :=
  mkSummary (Timestamp js) (JobID js) (ErrorMsg js) (CompleteJobOrdered js)
    (TotalTransfers js) (FileTransfers js) (FolderPropertyTransfers js)
    (TransfersCompleted js) (TransfersFailed js) (TransfersSkipped js)
    (TotalBytesEnumerated js) (TotalBytesExpected js)
    (TotalBytesTransferred js) (FailedTransfers js) v.

(** [jobPartCreatedMsg]. *)
Record jobPartCreatedMsg : Type := mkPartCreated {
  totalTransfers : Z;                       (* uint32 *)
  isFinalPart : bool;
  totalBytesEnumerated : Z;                 (* uint64 *)
  fileTransfers : Z;                        (* uint32 *)
  folderTransfer : Z                        (* uint32 *)
}.

(** [xferDoneMsg] is an alias of [common.TransferDetail]. *)
Definition xferDoneMsg : Type := TransferDetail.

(** [jobMgr], as far as the status manager reads it. *)
Record jobMgr : Type := mkJobMgr {
  jobID : Z
}.

(** The zero value of the summary. *)
Definition zeroSummary : ListJobSummaryResponse :=
  mkSummary 0 0 EmptyString false 0 0 0 0 0 0 0 0 0 [] [].

End Summary.

(** ** [ste/jobStatusManager.go], the revision with the [Send...Msg]
       methods: the summary is a field of the manager

    Every method locks the manager's mutex on entry and unlocks it on
    return, so a method is one atomic step on the manager. *)

Module SendMsg.

Import common Summary.

Record jobStatusManager : Type := mkJstm {
  js : ListJobSummaryResponse
}.

Section Methods.

Context {E : ETransferStatus}.

(** [jm.SendJobPartCreatedMsg(msg)]. *)
Definition SendJobPartCreatedMsg (msg : jobPartCreatedMsg)
    (jstm : jobStatusManager) : jobStatusManager :=
  let s := js jstm in
  let s := set_CompleteJobOrdered (CompleteJobOrdered s || isFinalPart msg) s in
  let s := set_TotalTransfers (uint32 (TotalTransfers s + totalTransfers msg)) s in
  let s := set_FileTransfers (uint32 (FileTransfers s + fileTransfers msg)) s in
  let s := set_FolderPropertyTransfers
             (uint32 (FolderPropertyTransfers s + folderTransfer msg)) s in
  let s := set_TotalBytesEnumerated
             (uint64 (TotalBytesEnumerated s + totalBytesEnumerated msg)) s in
  let s := set_TotalBytesExpected
             (uint64 (TotalBytesExpected s + totalBytesEnumerated msg)) s in
  mkJstm s.

(** [jm.SendXferDoneMsg(msg)]. *)
Definition SendXferDoneMsg (msg : xferDoneMsg) (jstm : jobStatusManager)
    : jobStatusManager :=
  let s := js jstm in
  let status := TransferStatus msg in
  if status =? Success then
    let s := set_TransfersCompleted (uint32 (TransfersCompleted s + 1)) s in
    let s := set_TotalBytesTransferred
               (uint64 (TotalBytesTransferred s + TransferSize msg)) s in
    mkJstm s
  else if (status =? Failed) || (status =? TierAvailabilityCheckFailure)
          || (status =? BlobTierFailure) then
    let s := set_TransfersFailed (uint32 (TransfersFailed s + 1)) s in
    let s := set_FailedTransfers (FailedTransfers s ++ [msg]) s in
    mkJstm s
  else if (status =? SkippedEntityAlreadyExists)
          || (status =? SkippedBlobHasSnapshots) then
    let s := set_TransfersSkipped (uint32 (TransfersSkipped s + 1)) s in
    let s := set_SkippedTransfers (SkippedTransfers s ++ [msg]) s in
    mkJstm s
  else jstm.

(** [jm.ListJobSummary()]; [now] is what [time.Now().UTC()] returns. *)
Definition ListJobSummary (jm : jobMgr) (now : Z) (jstm : jobStatusManager)
    : ListJobSummaryResponse * jobStatusManager :=
  let s := js jstm in
  let s := set_Timestamp now s in
  let s := set_JobID (jobID jm) s in
  let s := set_CompleteJobOrdered false s in
  let s := set_ErrorMsg EmptyString s in
  (s, mkJstm s).

(** [jm.ResurrectSummary(js)]. *)
Definition ResurrectSummary (s : ListJobSummaryResponse)
    (jstm : jobStatusManager) : jobStatusManager :=
  mkJstm s.

(** Messages sent one after the other. *)
Definition SendJobPartCreatedMsgs (msgs : list jobPartCreatedMsg)
    (jstm : jobStatusManager) : jobStatusManager :=
  fold_left (fun st msg => SendJobPartCreatedMsg msg st) msgs jstm.

Definition SendXferDoneMsgs (msgs : list xferDoneMsg)
    (jstm : jobStatusManager) : jobStatusManager :=
  fold_left (fun st msg => SendXferDoneMsg msg st) msgs jstm.

End Methods.

End SendMsg.

(** ** [ste/jobStatusManager.go], the revision with [InitStatusMgr] and the
       [SMUpdate...] methods: the manager holds a pointer to the summary,
       [nil] until [InitStatusMgr] installs one

    A method is one atomic step here too; it either returns or panics, and
    the manager is what it is at that moment. *)

Module SMUpdate.

Import common Summary.

Record jobStatusManager : Type := mkJstm {
  js : option ListJobSummaryResponse       (* *ListJobSummaryResponse *)
}.

(** Computations over the manager that may panic. *)
Definition M (A : Type) : Type := jobStatusManager -> outcome A * jobStatusManager.

Definition ret {A : Type} (a : A) : M A := fun st => (Ok a, st).

Definition bindM {A B : Type} (c : M A) (k : A -> M B) : M B :=
  fun st =>
    match c st with
    | (Ok a, st') => k a st'
    | (Crash f, st') => (Crash f, st')
    end.

Definition panic {A : Type} (f : failure) : M A := fun st => (Crash f, st).

Declare Scope sm_scope.
Delimit Scope sm_scope with sm.
Notation "x <- c1 ;; c2" := (bindM c1 (fun x => c2))
  (at level 61, c1 at next level, right associativity) : sm_scope.
Notation "c1 ;; c2" := (bindM c1 (fun _ => c2))
  (at level 61, right associativity) : sm_scope.

(** The pointer [jstm.js], read and written. *)
Definition get_js : M (option ListJobSummaryResponse) := fun st => (Ok (js st), st).

Definition put_js (p : option ListJobSummaryResponse) : M unit :=
  fun _ => (Ok tt, mkJstm p).

(** [*js]: the summary behind the pointer; a [nil] pointer panics. *)
Definition deref : M ListJobSummaryResponse :=
  fun st =>
    match js st with
    | Some s => (Ok s, st)
    | None => (Crash PanicNilDeref, st)
    end.

(** [js.F = e], where [e] may read the fields of [*js]. *)
Definition assign (upd : ListJobSummaryResponse -> ListJobSummaryResponse) : M unit :=
  (s <- deref ;; put_js (Some (upd s)))%sm.

(** Modelled from the spec: [jobMgr.Panic] is declared outside the sources;
    the call "fails fatally", it does not return. *)
Definition jm_Panic {A : Type} (jm : jobMgr) (f : failure) : M A := panic f.

Section Methods.

Context {E : ETransferStatus}.

(** [jm.InitStatusMgr(js)]. *)
Definition InitStatusMgr (jm : jobMgr) (s : option ListJobSummaryResponse) : M unit :=
  (p <- get_js ;;
   match p with
   | Some _ => jm_Panic jm (PanicError "StatusMgr already init")
   | None => ret tt
   end ;;
   put_js s)%sm.

(** [jm.SMUpdateJobpartCreated(msg)]. *)
Definition SMUpdateJobpartCreated (msg : jobPartCreatedMsg) : M unit :=
  (assign (fun s => set_CompleteJobOrdered (CompleteJobOrdered s || isFinalPart msg) s) ;;
   assign (fun s => set_TotalTransfers (uint32 (TotalTransfers s + totalTransfers msg)) s) ;;
   assign (fun s => set_FileTransfers (uint32 (FileTransfers s + fileTransfers msg)) s) ;;
   assign (fun s => set_FolderPropertyTransfers
                      (uint32 (FolderPropertyTransfers s + folderTransfer msg)) s) ;;
   assign (fun s => set_TotalBytesEnumerated
                      (uint64 (TotalBytesEnumerated s + totalBytesEnumerated msg)) s) ;;
   assign (fun s => set_TotalBytesExpected
                      (uint64 (TotalBytesExpected s + totalBytesEnumerated msg)) s))%sm.

(** [jm.SMUpdateXferDone(msg)]. *)
Definition SMUpdateXferDone (msg : xferDoneMsg) : M unit :=
  let status := TransferStatus msg in
  (if status =? Success then
     assign (fun s => set_TransfersCompleted (uint32 (TransfersCompleted s + 1)) s) ;;
     assign (fun s => set_TotalBytesTransferred
                        (uint64 (TotalBytesTransferred s + TransferSize msg)) s)
   else if (status =? Failed) || (status =? TierAvailabilityCheckFailure)
           || (status =? BlobTierFailure) then
     assign (fun s => set_TransfersFailed (uint32 (TransfersFailed s + 1)) s) ;;
     assign (fun s => set_FailedTransfers (FailedTransfers s ++ [msg]) s)
   else if (status =? SkippedEntityAlreadyExists)
           || (status =? SkippedBlobHasSnapshots) then
     assign (fun s => set_TransfersSkipped (uint32 (TransfersSkipped s + 1)) s) ;;
     assign (fun s => set_SkippedTransfers (SkippedTransfers s ++ [msg]) s)
   else ret tt)%sm.

(** [jm.ListJobSummary()]. *)
Definition ListJobSummary (jm : jobMgr) : M ListJobSummaryResponse :=
  (s <- deref ;; ret s)%sm.

(** Calls made one after the other; a panic ends the sequence. *)
Fixpoint forEach {A : Type} (f : A -> M unit) (l : list A) : M unit :=
  match l with
  | [] => ret tt
  | x :: l' => (f x ;; forEach f l')%sm
  end.

End Methods.

End SMUpdate.

(** ** What the specification asks of the status aggregator

    These definitions follow the specification's words, not the code; the
    properties below compare the code with them. *)

Module Spec.

Import common Summary.

(** [recordPartCreated]: "adds the given counts to the running totals and
    sets the fully-enumerated flag to true once any part reports
    [isFinalPart] (logical OR, not overwrite)"; the enumerated bytes count
    for the expected bytes as well. *)
Definition recordPartCreated (msg : jobPartCreatedMsg) (s : ListJobSummaryResponse)
    : ListJobSummaryResponse :=
  mkSummary (Timestamp s) (JobID s) (ErrorMsg s)
    (CompleteJobOrdered s || isFinalPart msg)
    (uint32 (TotalTransfers s + totalTransfers msg))
    (uint32 (FileTransfers s + fileTransfers msg))
    (uint32 (FolderPropertyTransfers s + folderTransfer msg))
    (TransfersCompleted s) (TransfersFailed s) (TransfersSkipped s)
    (uint64 (TotalBytesEnumerated s + totalBytesEnumerated msg))
    (uint64 (TotalBytesExpected s + totalBytesEnumerated msg))
    (TotalBytesTransferred s) (FailedTransfers s) (SkippedTransfers s).

(** "success: increment completed count, add transferred bytes to the
    transferred total". *)
Definition countCompleted (msg : xferDoneMsg) (s : ListJobSummaryResponse)
    : ListJobSummaryResponse :=
  mkSummary (Timestamp s) (JobID s) (ErrorMsg s) (CompleteJobOrdered s)
    (TotalTransfers s) (FileTransfers s) (FolderPropertyTransfers s)
    (uint32 (TransfersCompleted s + 1)) (TransfersFailed s) (TransfersSkipped s)
    (TotalBytesEnumerated s) (TotalBytesExpected s)
    (uint64 (TotalBytesTransferred s + TransferSize msg))
    (FailedTransfers s) (SkippedTransfers s).

(** "any failure variant: increment failed count, append the outcome
    detail to the failure list". *)
Definition countFailed (msg : xferDoneMsg) (s : ListJobSummaryResponse)
    : ListJobSummaryResponse :=
  mkSummary (Timestamp s) (JobID s) (ErrorMsg s) (CompleteJobOrdered s)
    (TotalTransfers s) (FileTransfers s) (FolderPropertyTransfers s)
    (TransfersCompleted s) (uint32 (TransfersFailed s + 1)) (TransfersSkipped s)
    (TotalBytesEnumerated s) (TotalBytesExpected s) (TotalBytesTransferred s)
    (FailedTransfers s ++ [msg]) (SkippedTransfers s).

(** "any skip variant: increment skipped count, append the outcome detail
    to the skip list". *)
Definition countSkipped (msg : xferDoneMsg) (s : ListJobSummaryResponse)
    : ListJobSummaryResponse :=
  mkSummary (Timestamp s) (JobID s) (ErrorMsg s) (CompleteJobOrdered s)
    (TotalTransfers s) (FileTransfers s) (FolderPropertyTransfers s)
    (TransfersCompleted s) (TransfersFailed s) (uint32 (TransfersSkipped s + 1))
    (TotalBytesEnumerated s) (TotalBytesExpected s) (TotalBytesTransferred s)
    (FailedTransfers s) (SkippedTransfers s ++ [msg]).

(** Two summaries with the same counters and the same detail lists. *)
Definition same_counters_and_details (s1 s2 : ListJobSummaryResponse) : Prop :=
  TotalTransfers s1 = TotalTransfers s2
  /\ FileTransfers s1 = FileTransfers s2
  /\ FolderPropertyTransfers s1 = FolderPropertyTransfers s2
  /\ TransfersCompleted s1 = TransfersCompleted s2
  /\ TransfersFailed s1 = TransfersFailed s2
  /\ TransfersSkipped s1 = TransfersSkipped s2
  /\ TotalBytesEnumerated s1 = TotalBytesEnumerated s2
  /\ TotalBytesExpected s1 = TotalBytesExpected s2
  /\ TotalBytesTransferred s1 = TotalBytesTransferred s2
  /\ FailedTransfers s1 = FailedTransfers s2
  /\ SkippedTransfers s1 = SkippedTransfers s2.

(** "identical final counts and identical (as sets) detail lists". *)
Definition same_totals (s1 s2 : ListJobSummaryResponse) : Prop :=
  TransfersCompleted s1 = TransfersCompleted s2
  /\ TransfersFailed s1 = TransfersFailed s2
  /\ TransfersSkipped s1 = TransfersSkipped s2
  /\ TotalBytesTransferred s1 = TotalBytesTransferred s2
  /\ (forall d, In d (FailedTransfers s1) <-> In d (FailedTransfers s2))
  /\ (forall d, In d (SkippedTransfers s1) <-> In d (SkippedTransfers s2)).

(** The same summary up to the order of the two detail lists. *)
Definition same_up_to_order (s1 s2 : ListJobSummaryResponse) : Prop :=
  Timestamp s1 = Timestamp s2 /\ JobID s1 = JobID s2
  /\ ErrorMsg s1 = ErrorMsg s2
  /\ CompleteJobOrdered s1 = CompleteJobOrdered s2
  /\ TotalTransfers s1 = TotalTransfers s2
  /\ FileTransfers s1 = FileTransfers s2
  /\ FolderPropertyTransfers s1 = FolderPropertyTransfers s2
  /\ TransfersCompleted s1 = TransfersCompleted s2
  /\ TransfersFailed s1 = TransfersFailed s2
  /\ TransfersSkipped s1 = TransfersSkipped s2
  /\ TotalBytesEnumerated s1 = TotalBytesEnumerated s2
  /\ TotalBytesExpected s1 = TotalBytesExpected s2
  /\ TotalBytesTransferred s1 = TotalBytesTransferred s2
  /\ Permutation (FailedTransfers s1) (FailedTransfers s2)
  /\ Permutation (SkippedTransfers s1) (SkippedTransfers s2).

(** The buckets of [recordTransferDone]: "classifies [outcome.status] into
    exactly one of three buckets"; "outcomes not matching a known variant
    are ignored". *)
Inductive bucket : Type :=
| Completed
| FailedBucket
| SkippedBucket
| Ignored.

Section Buckets.

Context {E : ETransferStatus}.

Definition failureVariants : list common.TransferStatus :=
  [Failed; TierAvailabilityCheckFailure; BlobTierFailure].

Definition skipVariants : list common.TransferStatus :=
  [SkippedEntityAlreadyExists; SkippedBlobHasSnapshots].

Definition knownVariants : list common.TransferStatus :=
  Success :: failureVariants ++ skipVariants.

Definition classify (status : common.TransferStatus) : bucket :=
  if status =? Success then Completed
  else if existsb (Z.eqb status) failureVariants then FailedBucket
  else if existsb (Z.eqb status) skipVariants then SkippedBucket
  else Ignored.

Definition recordTransferDone (msg : xferDoneMsg) (s : ListJobSummaryResponse)
    : ListJobSummaryResponse :=
  match classify (TransferStatus msg) with
  | Completed => countCompleted msg s
  | FailedBucket => countFailed msg s
  | SkippedBucket => countSkipped msg s
  | Ignored => s
  end.

End Buckets.

End Spec.

(** ** Runs: calls and messages one after the other, and what is counted
       in them *)

Module Runs.

Import common Summary.

(** Stores of the job status, one after the other. *)
Definition SetJobStatus_seq (statuses : list Z) (h : Plan.JobPartPlanHeader)
    : Plan.JobPartPlanHeader :=
  fold_left (fun r status => Plan.SetJobStatus status r) statuses h.

(** The two kinds of message the status manager receives. *)
Inductive message : Type :=
| PartCreated (msg : jobPartCreatedMsg)
| XferDone (msg : xferDoneMsg).

Definition partsOf (msgs : list message) : list jobPartCreatedMsg :=
  flat_map (fun m => match m with PartCreated p => [p] | XferDone _ => [] end) msgs.

Definition xfersOf (msgs : list message) : list xferDoneMsg :=
  flat_map (fun m => match m with PartCreated _ => [] | XferDone x => [x] end) msgs.

Definition totalSize (msgs : list xferDoneMsg) : Z :=
  fold_right (fun msg acc => TransferSize msg + acc) 0 msgs.

(** The first pointer of a list that is not [nil]. *)
Fixpoint firstInstalled (ps : list (option ListJobSummaryResponse))
    : option ListJobSummaryResponse :=
  match ps with
  | [] => None
  | Some s :: _ => Some s
  | None :: ps' => firstInstalled ps'
  end.

(** The failed and skipped counts are the lengths of the detail lists, as
    far as a [uint32] can tell. *)
Definition counts_match_details (s : ListJobSummaryResponse) : Prop :=
  TransfersFailed s = uint32 (Z.of_nat (List.length (FailedTransfers s)))
  /\ TransfersSkipped s = uint32 (Z.of_nat (List.length (SkippedTransfers s))).

(** Every counter holds a value of its type. *)
Definition counters_in_range (s : ListJobSummaryResponse) : Prop :=
  0 <= TotalTransfers s < 2 ^ 32
  /\ 0 <= FileTransfers s < 2 ^ 32
  /\ 0 <= FolderPropertyTransfers s < 2 ^ 32
  /\ 0 <= TransfersCompleted s < 2 ^ 32
  /\ 0 <= TransfersFailed s < 2 ^ 32
  /\ 0 <= TransfersSkipped s < 2 ^ 32
  /\ 0 <= TotalBytesEnumerated s < 2 ^ 64
  /\ 0 <= TotalBytesExpected s < 2 ^ 64
  /\ 0 <= TotalBytesTransferred s < 2 ^ 64.

Section Status.

Context {E : ETransferStatus}.

(** [SetTransferStatus] calls one after the other, each with the
    contention it meets. *)
Definition SetTransferStatus_calls
    (calls : list (list (Z -> Z) * common.TransferStatus))
    (jppt : Plan.JobPartPlanTransfer) : Plan.JobPartPlanTransfer :=
  fold_left (fun r call => Plan.SetTransferStatus (fst call) (snd call) r) calls jppt.

(** The outcomes of each kind. *)
Definition isSuccess (msg : xferDoneMsg) : bool :=
  TransferStatus msg =? Success.

Definition isFailure (msg : xferDoneMsg) : bool :=
  existsb (Z.eqb (TransferStatus msg))
    [Failed; TierAvailabilityCheckFailure; BlobTierFailure].

Definition isSkip (msg : xferDoneMsg) : bool :=
  existsb (Z.eqb (TransferStatus msg))
    [SkippedEntityAlreadyExists; SkippedBlobHasSnapshots].

(** A message delivered to either revision of the manager. *)
Definition send (m : message) (jstm : SendMsg.jobStatusManager)
    : SendMsg.jobStatusManager :=
  match m with
  | PartCreated p => SendMsg.SendJobPartCreatedMsg p jstm
  | XferDone x => SendMsg.SendXferDoneMsg x jstm
  end.

Definition sendAll (msgs : list message) (jstm : SendMsg.jobStatusManager)
    : SendMsg.jobStatusManager :=
  fold_left (fun st m => send m st) msgs jstm.

Definition update (m : message) : SMUpdate.M unit :=
  match m with
  | PartCreated p => SMUpdate.SMUpdateJobpartCreated p
  | XferDone x => SMUpdate.SMUpdateXferDone x
  end.

Definition updateAll (msgs : list message) : SMUpdate.M unit :=
  SMUpdate.forEach update msgs.

End Status.

End Runs.

(** ** The header as the memory holds it *)

Module MappedHeader.

Import common Plan.

(** Where [NumTransfers] stands in the header struct: as the header's
    size, it depends on the layout of the [common] types declared outside
    the sources. *)
Class HeaderLayout : Type := {
  offsetof_NumTransfers : Z
}.

Section Header.

Context {HL : HeaderLayout}.

(** [jpph.NumTransfers]: the four bytes of the [uint32] field, loaded from
    the mapped header. *)
Definition load_NumTransfers (m : AddressSpace) (jpph : Z) : outcome Z :=
  (bs <- load_bytes m (jpph + offsetof_NumTransfers) 4 ;; Ok (le_unsigned bs))%go.

(** The header fields [h] are the ones the memory holds at [jpph], as far
    as [Transfer] reads them. *)
Definition header_at (m : AddressSpace) (jpph : Z) (h : JobPartPlanHeader) : Prop :=
  load_NumTransfers m jpph = Ok (NumTransfers h).

End Header.

End MappedHeader.

(** ** Sample data: one admissible numbering of the enumerations, one
       header size, and a small mapped plan file *)

Module Samples.

Import common Plan Summary.

Ltac distinct_numbers :=
  repeat (apply NoDup_cons; [simpl; intuition lia|]); apply NoDup_nil.

Definition sampleTransferStatus : ETransferStatus :=
  Build_ETransferStatus 2 (-1) (-5) (-2) (-3) (-4) ltac:(distinct_numbers).

Definition sampleFromTo : EFromTo :=
  Build_EFromTo 3 1 4 2 (fun _ => "?"%string) ltac:(distinct_numbers).

Definition sampleLayout : PlanLayout :=
  Build_PlanLayout 1600 ltac:(lia).

(** Statuses that are none of the six enumerators of the sample
    numbering. *)
Definition NotStarted : common.TransferStatus := 0.
Definition Started : common.TransferStatus := 1.

(** A plan file of one transfer, mapped at [0x10000]: the header (1600
    bytes), one record (48 bytes), then the source [/a/b.txt] and the
    destination [container/b.txt].  The file is 1671 bytes long; the page
    it is mapped on is readable up to its end and reads as zero behind the
    file's last byte. *)
Definition sampleBase : Z := 65536.
Definition samplePageSize : Z := 4096.

Definition sampleSrc : list byte :=
  [x2f; x61; x2f; x62; x2e; x74; x78; x74].

Definition sampleDst : list byte :=
  [x63; x6f; x6e; x74; x61; x69; x6e; x65; x72; x2f; x62; x2e; x74; x78; x74].

(** The record's bytes: [SrcOffset = 1648], [SrcLength = 8], [DstLength] as
    given, the other fields zero. *)
Definition sampleRecord (dstLength : byte) : list byte :=
  [x70; x06; x00; x00; x00; x00; x00; x00;      (* SrcOffset = 0x670 *)
   x08; x00;                                    (* SrcLength *)
   dstLength; x00;                              (* DstLength *)
   x00; x00; x00; x00]
  ++ repeat x00 32.

Definition sampleFile (dstLength : byte) : list byte :=
  repeat x00 1600 ++ sampleRecord dstLength ++ sampleSrc ++ sampleDst.

Definition sampleMMF : JobPartPlanMMF := mkMMF sampleBase 1671.

Definition sampleMemory (dstLength : byte) : AddressSpace :=
  fun addr =>
    if (sampleBase <=? addr) && (addr <? sampleBase + samplePageSize) then
      Some (nth (Z.to_nat (addr - sampleBase)) (sampleFile dstLength) x00)
    else None.

Definition sampleHeader : JobPartPlanHeader :=
  mkHeader 0 7 0 true 0 0 1 1 0
    (mkDstBlob false 0 [] 0 [] 0 [] 0 [] 0 [] 0) (mkDstLocal false) 0.

Definition sampleHeader3 : JobPartPlanHeader :=
  mkHeader 0 7 0 true 0 0 1 3 0
    (mkDstBlob false 0 [] 0 [] 0 [] 0 [] 0 [] 0) (mkDstLocal false) 0.

Definition sampleTransfer : JobPartPlanTransfer := mkTransfer 1648 8 15 0 23 0 0.

(** A summary with every counter set, and the messages of the scenarios. *)
Definition sampleDetail (status size : Z) : TransferDetail :=
  mkDetail "/a/b.txt" "container/b.txt" status size.

Definition sampleSummary : ListJobSummaryResponse :=
  mkSummary 1000 7 "stale" true 10 8 2 4 1 1 5000 5000 2048
    [sampleDetail (-1) 10] [sampleDetail (-3) 20].

Definition sampleJobMgr : jobMgr := mkJobMgr 7.

Definition partA : jobPartCreatedMsg := mkPartCreated 150 false 1000000 140 10.
Definition partB : jobPartCreatedMsg := mkPartCreated 50 true 500000 50 0.

End Samples.

(** A header layout with [NumTransfers] at offset 36, and the sample plan
    file with that field set to the one transfer it holds. *)

Module MappedSamples.

Import Plan Samples MappedHeader.

Definition sampleHeaderLayout : HeaderLayout := Build_HeaderLayout 36.

Definition sampleMappedMemory : AddressSpace :=
  fun addr =>
    if addr =? sampleBase + 36 then Some x01 else sampleMemory x0f addr.

(** The same memory after a store of 2 into the status word of record 0
    (byte 40 of the record). *)
Definition sampleMappedMemory_status : AddressSpace :=
  fun addr =>
    if addr =? 67176 then Some x02 else sampleMappedMemory addr.

End MappedSamples.

(** * Properties *)

(** ** Machine arithmetic *)

Module GoFacts.

(** Equalities and bounds between wrapped sums, by the division equations. *)
Ltac wrap_lia :=
  unfold uintptr, uint64, uint32, wrap in *; Z.div_mod_to_equations; lia.

Lemma wrap_range (w z : Z) : 0 <= w -> 0 <= wrap w z < 2 ^ w.
Proof.
  intros Hw. unfold wrap. apply Z.mod_pos_bound. apply Z.pow_pos_nonneg; lia.
Qed.

Lemma wrap_small (w z : Z) : 0 <= z < 2 ^ w -> wrap w z = z.
Proof. intros H. unfold wrap. now apply Z.mod_small. Qed.

Lemma wrap_add_l (w a b : Z) : wrap w (wrap w a + b) = wrap w (a + b).
Proof. unfold wrap. now rewrite Zplus_mod_idemp_l. Qed.

Lemma wrap_add_r (w a b : Z) : wrap w (a + wrap w b) = wrap w (a + b).
Proof. unfold wrap. now rewrite Zplus_mod_idemp_r. Qed.

Lemma wrap_mul_r (w a b : Z) : wrap w (a * wrap w b) = wrap w (a * b).
Proof. unfold wrap. now rewrite Zmult_mod_idemp_r. Qed.

(** Adding in either order wraps to the same value. *)
Lemma wrap_add_swap (w a x y : Z) :
  wrap w (wrap w (a + x) + y) = wrap w (wrap w (a + y) + x).
Proof. rewrite !wrap_add_l. f_equal. lia. Qed.

(** Two offsets below the modulus that wrap to the same address from the
    same base are the same offset. *)
Lemma wrap_add_inj (w a x y : Z) :
  0 <= w -> 0 <= x < 2 ^ w -> 0 <= y < 2 ^ w ->
  wrap w (a + x) = wrap w (a + y) -> x = y.
Proof.
  intros Hw Hx Hy H. unfold wrap in H.
  assert (Hpos : 0 < 2 ^ w) by (apply Z.pow_pos_nonneg; lia).
  assert (Hd : (x - y) mod 2 ^ w = 0).
  { replace (x - y) with ((a + x) - (a + y)) by lia.
    rewrite Zminus_mod, H, Z.sub_diag. now apply Z.mod_0_l, Z.neq_sym, Z.lt_neq. }
  apply Z.mod_divide in Hd; [|lia].
  destruct Hd as [k Hk].
  assert (k = 0) by nia. lia.
Qed.

End GoFacts.

(** ** The plan file *)

Module PlanFacts.

Import common Plan GoFacts.

Section Loads.

Variable m : AddressSpace.

(** Loads depend on the address modulo the size of the address space. *)
Lemma load_bytes_congr (n : nat) :
  forall a b, uintptr a = uintptr b -> load_bytes m a n = load_bytes m b n.
Proof.
  induction n as [|n IH]; intros a b Hab; simpl; [reflexivity|].
  rewrite Hab. destruct (m (uintptr b)); [|reflexivity].
  rewrite (IH (a + 1) (b + 1)); [reflexivity|].
  unfold uintptr in *. rewrite <- (wrap_add_l 64 a), <- (wrap_add_l 64 b).
  now rewrite Hab.
Qed.

Lemma load_bytes_uintptr (n : nat) (a : Z) :
  load_bytes m (uintptr a) n = load_bytes m a n.
Proof.
  apply load_bytes_congr. unfold uintptr, wrap. apply Z.mod_mod.
  apply Z.pow_nonzero; lia.
Qed.

(** When every address of the range is readable, the load returns the
    bytes stored there, in order. *)
Lemma load_bytes_reads (n : nat) :
  forall (a : Z) (bs : list byte),
    List.length bs = n ->
    (forall k, (k < n)%nat -> m (uintptr (a + Z.of_nat k)) = Some (nth k bs x00)) ->
    load_bytes m a n = Ok bs.
Proof.
  induction n as [|n IH]; intros a bs Hlen Hall.
  - destruct bs; [reflexivity|discriminate].
  - destruct bs as [|b bs]; [discriminate|]. simpl.
    assert (H0 : m (uintptr (a + Z.of_nat 0)) = Some (nth 0 (b :: bs) x00))
      by (apply Hall; lia).
    simpl in H0. rewrite Z.add_0_r in H0. rewrite H0.
    rewrite (IH (a + 1) bs); [reflexivity|simpl in Hlen; lia|].
    intros k Hk.
    assert (Hk' : (S k < S n)%nat) by lia.
    specialize (Hall (S k) Hk'). simpl nth in Hall.
    rewrite <- Hall. f_equal. f_equal. lia.
Qed.

(** A load fails only on an address where nothing is mapped. *)
Lemma load_bytes_crash (n : nat) :
  forall a f, load_bytes m a n = Crash f ->
    exists addr, f = FaultAddress addr /\ m addr = None.
Proof.
  induction n as [|n IH]; intros a f H; simpl in H; [discriminate|].
  destruct (m (uintptr a)) eqn:Hm.
  - destruct (load_bytes m (a + 1) n) eqn:Hl; simpl in H; [discriminate|].
    inversion H; subst. eapply IH; eassumption.
  - inversion H; subst. eauto.
Qed.

Lemma load_int_crash (n : nat) (a : Z) (f : failure) :
  load_int m a n = Crash f -> exists addr, f = FaultAddress addr /\ m addr = None.
Proof.
  unfold load_int. destruct (load_bytes m a n) eqn:Hl; simpl; [discriminate|].
  intros H; inversion H; subst. eapply load_bytes_crash; eassumption.
Qed.

End Loads.

Section Accessors.

Context {L : PlanLayout} {E : ETransferStatus}.

(** The address [Transfer] computes, with the nested wrap-arounds
    merged. *)
Lemma Transfer_address (jpph : Z) (h : JobPartPlanHeader) (idx : Z) :
  idx < NumTransfers h ->
  Transfer jpph h idx =
    Ok (uintptr (jpph + sizeof_JobPartPlanHeader + idx * sizeof_JobPartPlanTransfer)).
Proof.
  intros Hlt. unfold Transfer.
  destruct (Z.leb_spec (NumTransfers h) idx); [lia|].
  f_equal. unfold uintptr.
  rewrite wrap_mul_r, wrap_add_l, wrap_add_r. f_equal. lia.
Qed.

Lemma Transfer_out_of_range (jpph : Z) (h : JobPartPlanHeader) (idx : Z) :
  NumTransfers h <= idx ->
  Transfer jpph h idx =
    Crash (PanicError "requesting a transfer index greater than what is available").
Proof.
  intros Hge. unfold Transfer.
  destruct (Z.leb_spec (NumTransfers h) idx); [reflexivity|lia].
Qed.

(** C8.  [Transfer] panics with its out-of-range error exactly when the
    index is at least [NumTransfers]; below [NumTransfers] it returns the
    address [sizeof header + index * sizeof record] past the header's
    address (in pointer arithmetic); and the records of two different
    indices below [NumTransfers] (a [uint32]) share no byte. *)
Theorem Transfer_range_and_layout (jpph : Z) (h : JobPartPlanHeader) :
  (forall idx,
     (exists msg, Transfer jpph h idx = Crash (PanicError msg))
     <-> NumTransfers h <= idx)
  /\ (forall idx, idx < NumTransfers h ->
        Transfer jpph h idx =
          Ok (uintptr (jpph + sizeof_JobPartPlanHeader
                       + idx * sizeof_JobPartPlanTransfer)))
  /\ (NumTransfers h <= 2 ^ 32 ->
      forall i j p q,
        0 <= i < NumTransfers h -> 0 <= j < NumTransfers h -> i <> j ->
        Transfer jpph h i = Ok p -> Transfer jpph h j = Ok q ->
        forall k k',
          0 <= k < sizeof_JobPartPlanTransfer ->
          0 <= k' < sizeof_JobPartPlanTransfer ->
          uintptr (p + k) <> uintptr (q + k')).
Proof.
  split; [|split].
  - intros idx. split.
    + intros [msg H]. destruct (Z.le_gt_cases (NumTransfers h) idx) as [|Hlt]; [assumption|].
      rewrite (Transfer_address _ _ _ Hlt) in H. discriminate.
    + intros Hge. eexists. now apply Transfer_out_of_range.
  - intros idx. apply Transfer_address.
  - intros Hn i j p q Hi Hj Hij Hp Hq k k' Hk Hk' Heq.
    rewrite Transfer_address in Hp, Hq by lia.
    inversion Hp; inversion Hq; subst p q; clear Hp Hq.
    unfold uintptr, sizeof_JobPartPlanTransfer in *.
    rewrite !wrap_add_l in Heq.
    replace (jpph + sizeof_JobPartPlanHeader + i * 48 + k)
      with (jpph + sizeof_JobPartPlanHeader + (i * 48 + k)) in Heq by lia.
    replace (jpph + sizeof_JobPartPlanHeader + j * 48 + k')
      with (jpph + sizeof_JobPartPlanHeader + (j * 48 + k')) in Heq by lia.
    apply wrap_add_inj in Heq; try lia.
Qed.

(** When the records lie inside the address space nothing wraps: the
    address is the plain sum and the records are disjoint intervals. *)
Lemma Transfer_no_wrap (jpph : Z) (h : JobPartPlanHeader) (i j : Z) :
  0 <= jpph ->
  jpph + sizeof_JobPartPlanHeader
    + NumTransfers h * sizeof_JobPartPlanTransfer <= 2 ^ 64 ->
  0 <= i < NumTransfers h -> 0 <= j < NumTransfers h -> i < j ->
  exists p q,
    Transfer jpph h i = Ok p /\ Transfer jpph h j = Ok q
    /\ p = jpph + sizeof_JobPartPlanHeader + i * sizeof_JobPartPlanTransfer
    /\ q = jpph + sizeof_JobPartPlanHeader + j * sizeof_JobPartPlanTransfer
    /\ p + sizeof_JobPartPlanTransfer <= q.
Proof.
  intros Hb Hfit Hi Hj Hij.
  pose proof sizeof_JobPartPlanHeader_range as Hs.
  unfold sizeof_JobPartPlanTransfer in *.
  do 2 eexists. rewrite !Transfer_address by lia.
  unfold uintptr. rewrite !wrap_small by (unfold sizeof_JobPartPlanTransfer; lia).
  repeat split; unfold sizeof_JobPartPlanTransfer; lia.
Qed.

(** C4, as the code has it.  For an index below [NumTransfers], whose
    record holds the offset and the two lengths given: when the lengths are
    not negative and the process can read the [SrcLength] bytes at header
    address + [SrcOffset] and the [DstLength] bytes that follow them,
    [TransferSrcDstStrings] returns exactly these two byte strings; and
    whatever the memory holds, it fails only on a load from an address where
    nothing is mapped or on a negative length.  Nothing is compared with
    the bounds of the mapped file. *)
Theorem TransferSrcDstStrings_reads_memory (m : AddressSpace) (jpph : Z)
    (h : JobPartPlanHeader) (idx jppt : Z) :
  Transfer jpph h idx = Ok jppt ->
  (forall srcOffset srcLength dstLength (source destination : list byte),
     load_int m (jppt + offsetof_SrcOffset) 8 = Ok srcOffset ->
     load_int m (jppt + offsetof_SrcLength) 2 = Ok srcLength ->
     load_int m (jppt + offsetof_DstLength) 2 = Ok dstLength ->
     Z.of_nat (List.length source) = srcLength ->
     Z.of_nat (List.length destination) = dstLength ->
     (forall k, (k < List.length source)%nat ->
        m (uintptr (jpph + srcOffset + Z.of_nat k)) = Some (nth k source x00)) ->
     (forall k, (k < List.length destination)%nat ->
        m (uintptr (jpph + srcOffset + srcLength + Z.of_nat k))
        = Some (nth k destination x00)) ->
     TransferSrcDstStrings m jpph h idx = Ok (source, destination))
  /\ (forall f,
        TransferSrcDstStrings m jpph h idx = Crash f ->
        (exists addr, f = FaultAddress addr /\ m addr = None)
        \/ (exists len, f = FaultLength len /\ len < 0)).
Proof.
  intros Ht. split.
  - intros srcOffset srcLength dstLength source destination
      Hoff Hsl Hdl Hls Hld Hsrc Hdst.
    unfold TransferSrcDstStrings. rewrite Ht. simpl.
    rewrite Hoff. simpl. rewrite Hsl. simpl. rewrite Hdl. simpl.
    unfold slicebytetostring.
    destruct (Z.ltb_spec srcLength 0); [lia|].
    destruct (Z.ltb_spec dstLength 0); [lia|].
    rewrite (load_bytes_congr m _ _ (jpph + srcOffset)) by wrap_lia.
    rewrite (load_bytes_reads m (Z.to_nat srcLength) _ source); [|lia|].
    + simpl.
      rewrite (load_bytes_congr m _ _ (jpph + srcOffset + srcLength)) by wrap_lia.
      rewrite (load_bytes_reads m (Z.to_nat dstLength) _ destination);
        [reflexivity|lia|].
      intros k Hk. apply Hdst. lia.
    + intros k Hk. apply Hsrc. lia.
  - intros f. unfold TransferSrcDstStrings. rewrite Ht. simpl.
    repeat match goal with
    | |- context [Go.bind (load_int m ?a ?n) _] =>
        let Hl := fresh "Hl" in
        destruct (load_int m a n) eqn:Hl; simpl;
        [|intros Hc; inversion Hc; subst; left; eapply load_int_crash; eassumption]
    end.
    unfold slicebytetostring.
    destruct (Z.ltb_spec a0 0); simpl;
      [intros Hc; inversion Hc; subst; right; eauto|].
    destruct (load_bytes m _ (Z.to_nat a0)) eqn:Hsrc; simpl;
      [|intros Hc; inversion Hc; subst; left; eapply load_bytes_crash; eassumption].
    destruct (Z.ltb_spec a1 0); simpl;
      [intros Hc; inversion Hc; subst; right; eauto|].
    destruct (load_bytes m _ (Z.to_nat a1)) eqn:Hdst; simpl;
      [discriminate|].
    intros Hc; inversion Hc; subst; left; eapply load_bytes_crash; eassumption.
Qed.

Lemma in_regionb_spec (mmf : JobPartPlanMMF) (addr n : Z) :
  in_regionb mmf addr n = true <-> in_region mmf addr n.
Proof.
  unfold in_regionb, in_region.
  rewrite andb_true_iff, Z.leb_le, Z.leb_le. reflexivity.
Qed.

Lemma CompareAndSwapInt32_same (cell new : Z) :
  CompareAndSwapInt32 cell cell new = (new, true).
Proof. unfold CompareAndSwapInt32. now rewrite Z.eqb_refl. Qed.

(** A call that runs alone keeps [Failed] and stores any other status. *)
Lemma SetTransferStatus_alone (status : common.TransferStatus)
    (jppt : JobPartPlanTransfer) :
  TransferStatus (SetTransferStatus [] status jppt)
  = if TransferStatus jppt =? Failed then TransferStatus jppt else status.
Proof.
  unfold SetTransferStatus, TransferStatus. simpl.
  rewrite CompareAndSwapInt32_same. reflexivity.
Qed.

(** Only the status word is written. *)
Lemma SetTransferStatus_frame (others : list (Z -> Z))
    (status : common.TransferStatus) (jppt : JobPartPlanTransfer) :
  let r := SetTransferStatus others status jppt in
  SrcOffset r = SrcOffset jppt /\ SrcLength r = SrcLength jppt
  /\ DstLength r = DstLength jppt /\ ModifiedTime r = ModifiedTime jppt
  /\ SourceSize r = SourceSize jppt /\ CompletionTime r = CompletionTime jppt.
Proof.
  unfold SetTransferStatus.
  destruct (AtomicMorphInt32 _ _ _) as [v u]. simpl. repeat split.
Qed.

Lemma SetTransferStatus_seq_Failed (statuses : list common.TransferStatus) :
  forall jppt, TransferStatus jppt = Failed ->
    TransferStatus (SetTransferStatus_seq statuses jppt) = Failed.
Proof.
  induction statuses as [|s statuses IH]; intros jppt Hf; [exact Hf|].
  unfold SetTransferStatus_seq in *. simpl. apply IH.
  rewrite SetTransferStatus_alone, Hf, Z.eqb_refl. reflexivity.
Qed.

(** C1.  A call of [SetTransferStatus] leaves the status as it is when it
    is [Failed] and stores the new status otherwise; so in every sequence
    of calls on a record, once a call has set [Failed] the status read
    after the remaining calls is [Failed]. *)
Theorem SetTransferStatus_Failed_sticky (jppt : JobPartPlanTransfer) :
  (forall status,
     TransferStatus (SetTransferStatus [] status jppt)
     = if TransferStatus jppt =? Failed then TransferStatus jppt else status)
  /\ (forall before after,
        TransferStatus (SetTransferStatus_seq (before ++ Failed :: after) jppt)
        = Failed).
Proof.
  split.
  - intros status. apply SetTransferStatus_alone.
  - intros before after. unfold SetTransferStatus_seq.
    rewrite fold_left_app. simpl.
    apply (SetTransferStatus_seq_Failed after).
    rewrite SetTransferStatus_alone.
    destruct (Z.eqb_spec (TransferStatus (fold_left
      (fun r status => SetTransferStatus [] status r) before jppt)) Failed);
      [assumption|reflexivity].
Qed.

(** The same under contention: other workers' writes are themselves
    [SetTransferStatus] calls, so they keep [Failed]; then a contended call
    keeps [Failed] too, and a contended call that sets [Failed] ends with
    [Failed] stored. *)
Lemma SetTransferStatus_contended_keeps_Failed (others : list (Z -> Z))
    (status : common.TransferStatus) (jppt : JobPartPlanTransfer) :
  Forall (fun w => w Failed = Failed) others ->
  TransferStatus jppt = Failed ->
  TransferStatus (SetTransferStatus others status jppt) = Failed.
Proof.
  unfold SetTransferStatus, TransferStatus.
  destruct jppt as [so sl dl mt ss ct st]. simpl. intros Hothers Hst. subst st.
  destruct others as [|w others]; simpl.
  - rewrite Z.eqb_refl. simpl. rewrite CompareAndSwapInt32_same. reflexivity.
  - inversion Hothers as [|? ? Hw _]; subst.
    rewrite Z.eqb_refl. simpl. rewrite Hw, CompareAndSwapInt32_same. reflexivity.
Qed.

Lemma SetTransferStatus_contended_sets_Failed (others : list (Z -> Z)) :
  forall jppt, TransferStatus (SetTransferStatus others Failed jppt) = Failed.
Proof.
  unfold SetTransferStatus, TransferStatus.
  intros [so sl dl mt ss ct st]. simpl. revert st.
  induction others as [|w others IH]; intros st; simpl.
  - rewrite CompareAndSwapInt32_same. simpl.
    unfold Iffint32. destruct (Z.eqb_spec st Failed); assumption || reflexivity.
  - unfold CompareAndSwapInt32 at 1.
    destruct (w st =? st) eqn:Hw.
    + simpl. unfold Iffint32. destruct (Z.eqb_spec st Failed); assumption || reflexivity.
    + specialize (IH (w st)).
      destruct (AtomicMorphInt32 others (w st) _) as [v u]. exact IH.
Qed.

End Accessors.

End PlanFacts.

(** ** The plan file on the sample data *)

Module PlanExamples.

Import common Plan Samples PlanFacts.

(** Scenario 4 of the specification: the strings written for transfer 0
    are read back. *)
Lemma TransferSrcDstStrings_sample :
  TransferSrcDstStrings (L := sampleLayout) (sampleMemory x0f)
    (Plan sampleMMF) sampleHeader 0
  = Ok (sampleSrc, sampleDst).
Proof. vm_compute. reflexivity. Qed.

Lemma TransferSrcDstStrings_reads_memory_witness :
  Transfer (L := sampleLayout) (Plan sampleMMF) sampleHeader 0 = Ok 67136
  /\ TransferSrcDstStrings (L := sampleLayout) (sampleMemory x0f)
       (Plan sampleMMF) sampleHeader 0
     = Ok (sampleSrc, sampleDst).
Proof.
  assert (Ht : Transfer (L := sampleLayout) (Plan sampleMMF) sampleHeader 0
               = Ok 67136) by (vm_compute; reflexivity).
  split; [exact Ht|].
  apply (proj1 (TransferSrcDstStrings_reads_memory (L := sampleLayout)
                  (sampleMemory x0f) (Plan sampleMMF) sampleHeader 0 67136 Ht)
           1648 8 15).
  - vm_compute; reflexivity.
  - vm_compute; reflexivity.
  - vm_compute; reflexivity.
  - reflexivity.
  - reflexivity.
  - intros k Hk. simpl in Hk.
    do 8 (destruct k as [|k]; [vm_compute; reflexivity|]). lia.
  - intros k Hk. simpl in Hk.
    do 15 (destruct k as [|k]; [vm_compute; reflexivity|]). lia.
Defined.

(** With [DstLength = 100] the destination's range ends 85 bytes behind
    the last byte of the mapped file; the call does not fail, it returns
    what the page holds there. *)
Lemma TransferSrcDstStrings_reads_past_the_file :
  load_int (sampleMemory x64) (67136 + offsetof_DstLength) 2 = Ok 100
  /\ in_regionb sampleMMF (Plan sampleMMF + 1648 + 8) 100 = false
  /\ TransferSrcDstStrings (L := sampleLayout) (sampleMemory x64)
       (Plan sampleMMF) sampleHeader 0
     = Ok (sampleSrc, sampleDst ++ repeat x00 85).
Proof. vm_compute. repeat split. Qed.

Lemma Transfer_range_and_layout_witness :
  Transfer (L := sampleLayout) (Plan sampleMMF) sampleHeader3 3
  = Crash (PanicError "requesting a transfer index greater than what is available")
  /\ Transfer (L := sampleLayout) (Plan sampleMMF) sampleHeader3 2
     = Ok (uintptr (65536 + 1600 + 2 * 48))
  /\ uintptr (67136 + 47) <> uintptr (67184 + 0).
Proof.
  pose proof (Transfer_range_and_layout (L := sampleLayout)
                (Plan sampleMMF) sampleHeader3) as [Hrange [Haddr Hdisj]].
  split; [|split].
  - destruct (proj2 (Hrange 3)) as [msg Hmsg]; [simpl; lia|].
    rewrite Hmsg. vm_compute in Hmsg. inversion Hmsg. reflexivity.
  - apply Haddr. simpl. lia.
  - apply (Hdisj ltac:(simpl; lia) 0 1); try (simpl; lia);
      try (vm_compute; reflexivity); unfold sizeof_JobPartPlanTransfer; lia.
Defined.

End PlanExamples.

(** ** The status manager, [Send...Msg] revision *)

Module SendMsgFacts.

Import common Summary SendMsg GoFacts.

Section Methods.

Context {E : ETransferStatus}.

(** The six enumerators fall into the bucket the specification names. *)
Lemma classify_known :
  Spec.classify Success = Spec.Completed
  /\ (forall status, In status Spec.failureVariants ->
        Spec.classify status = Spec.FailedBucket)
  /\ (forall status, In status Spec.skipVariants ->
        Spec.classify status = Spec.SkippedBucket)
  /\ (forall status, ~ In status Spec.knownVariants ->
        Spec.classify status = Spec.Ignored).
Proof.
  pose proof ETransferStatus_distinct as Hd.
  repeat (apply NoDup_cons_iff in Hd; destruct Hd as [? Hd]).
  unfold Spec.classify, Spec.knownVariants, Spec.failureVariants,
    Spec.skipVariants; simpl in *.
  repeat split.
  - now rewrite Z.eqb_refl.
  - intros status Hin.
    repeat match goal with
    | |- context [?a =? ?b] => destruct (Z.eqb_spec a b); subst; simpl
    end; try reflexivity; exfalso; intuition congruence.
  - intros status Hin.
    repeat match goal with
    | |- context [?a =? ?b] => destruct (Z.eqb_spec a b); subst; simpl
    end; try reflexivity; exfalso; intuition congruence.
  - intros status Hin.
    repeat match goal with
    | |- context [?a =? ?b] => destruct (Z.eqb_spec a b); subst; simpl
    end; try reflexivity; exfalso; intuition congruence.
Qed.

Lemma SendJobPartCreatedMsg_spec (msg : jobPartCreatedMsg) (jstm : jobStatusManager) :
  js (SendJobPartCreatedMsg msg jstm) = Spec.recordPartCreated msg (js jstm).
Proof. reflexivity. Qed.

Lemma SendXferDoneMsg_spec (msg : xferDoneMsg) (jstm : jobStatusManager) :
  js (SendXferDoneMsg msg jstm) = Spec.recordTransferDone msg (js jstm).
Proof.
  unfold SendXferDoneMsg, Spec.recordTransferDone, Spec.classify,
    Spec.failureVariants, Spec.skipVariants. simpl.
  rewrite !orb_false_r, <- !orb_assoc.
  destruct (TransferStatus msg =? Success); [reflexivity|].
  destruct (_ || _); [reflexivity|].
  destruct (_ || _); reflexivity.
Qed.

Lemma SendXferDoneMsgs_cons (msg : xferDoneMsg) (msgs : list xferDoneMsg)
    (jstm : jobStatusManager) :
  SendXferDoneMsgs (msg :: msgs) jstm = SendXferDoneMsgs msgs (SendXferDoneMsg msg jstm).
Proof. reflexivity. Qed.

(** *** Order of the outcomes *)

Lemma same_up_to_order_refl (s : ListJobSummaryResponse) : Spec.same_up_to_order s s.
Proof. unfold Spec.same_up_to_order. repeat split; apply Permutation_refl. Qed.

Lemma same_up_to_order_trans (s1 s2 s3 : ListJobSummaryResponse) :
  Spec.same_up_to_order s1 s2 -> Spec.same_up_to_order s2 s3 ->
  Spec.same_up_to_order s1 s3.
Proof.
  unfold Spec.same_up_to_order. intros H12 H23.
  decompose [and] H12. decompose [and] H23.
  repeat split; try congruence; eapply Permutation_trans; eassumption.
Qed.

(** Recording an outcome respects the relation. *)
Lemma recordTransferDone_up_to_order (msg : xferDoneMsg)
    (s s' : ListJobSummaryResponse) :
  Spec.same_up_to_order s s' ->
  Spec.same_up_to_order (Spec.recordTransferDone msg s) (Spec.recordTransferDone msg s').
Proof.
  unfold Spec.same_up_to_order, Spec.recordTransferDone. intros H.
  decompose [and] H.
  destruct (Spec.classify (TransferStatus msg)); simpl;
    repeat split; try congruence; try assumption;
    now apply Permutation_app_tail.
Qed.

(** Two outcomes recorded in either order. *)
Lemma recordTransferDone_swap (x y : xferDoneMsg) (s : ListJobSummaryResponse) :
  Spec.same_up_to_order
    (Spec.recordTransferDone y (Spec.recordTransferDone x s))
    (Spec.recordTransferDone x (Spec.recordTransferDone y s)).
Proof.
  unfold Spec.same_up_to_order, Spec.recordTransferDone.
  destruct (Spec.classify (TransferStatus x)), (Spec.classify (TransferStatus y));
    simpl; repeat split; try apply Permutation_refl;
    try (unfold uint64; apply wrap_add_swap);
    rewrite <- !app_assoc; apply Permutation_app_head; simpl; apply perm_swap.
Qed.

Lemma SendXferDoneMsgs_up_to_order (msgs : list xferDoneMsg) :
  forall st st',
    Spec.same_up_to_order (js st) (js st') ->
    Spec.same_up_to_order (js (SendXferDoneMsgs msgs st)) (js (SendXferDoneMsgs msgs st')).
Proof.
  induction msgs as [|msg msgs IH]; intros st st' H; [exact H|].
  rewrite !SendXferDoneMsgs_cons. apply IH.
  rewrite !SendXferDoneMsg_spec. now apply recordTransferDone_up_to_order.
Qed.

(** By induction on the permutation. *)
Lemma SendXferDoneMsgs_permutation (l1 l2 : list xferDoneMsg) :
  Permutation l1 l2 ->
  forall st st',
    Spec.same_up_to_order (js st) (js st') ->
    Spec.same_up_to_order (js (SendXferDoneMsgs l1 st)) (js (SendXferDoneMsgs l2 st')).
Proof.
  induction 1 as [|x l1 l2 Hperm IH|x y l|l1 l2 l3 H12 IH12 H23 IH23];
    intros st st' Hst.
  - exact Hst.
  - rewrite !SendXferDoneMsgs_cons. apply IH.
    rewrite !SendXferDoneMsg_spec. now apply recordTransferDone_up_to_order.
  - rewrite !SendXferDoneMsgs_cons. apply SendXferDoneMsgs_up_to_order.
    rewrite !SendXferDoneMsg_spec.
    eapply same_up_to_order_trans; [apply recordTransferDone_swap|].
    now do 2 apply recordTransferDone_up_to_order.
  - eapply same_up_to_order_trans;
      [apply (IH12 st st), same_up_to_order_refl|now apply IH23].
Qed.

Lemma same_up_to_order_totals (s1 s2 : ListJobSummaryResponse) :
  Spec.same_up_to_order s1 s2 -> Spec.same_totals s1 s2.
Proof.
  unfold Spec.same_up_to_order, Spec.same_totals. intros H.
  decompose [and] H. repeat split; try assumption; intros Hin;
    solve [eapply Permutation_in; eassumption
          |eapply Permutation_in; [apply Permutation_sym|]; eassumption].
Qed.

End Methods.

End SendMsgFacts.

(** ** The status manager, [SMUpdate...] revision *)

Module SMUpdateFacts.

Import common Summary SMUpdate GoFacts.

(** With a summary installed the two revisions update it alike. *)
Lemma SMUpdateJobpartCreated_installed (msg : jobPartCreatedMsg)
    (s : ListJobSummaryResponse) :
  SMUpdateJobpartCreated msg (mkJstm (Some s))
  = (Ok tt, mkJstm (Some (Spec.recordPartCreated msg s))).
Proof. reflexivity. Qed.

(** Without one the first assignment dereferences [nil]. *)
Lemma SMUpdateJobpartCreated_nil (msg : jobPartCreatedMsg) :
  SMUpdateJobpartCreated msg (mkJstm None) = (Crash PanicNilDeref, mkJstm None).
Proof. reflexivity. Qed.

Lemma forEach_SMUpdateJobpartCreated (msgs : list jobPartCreatedMsg) :
  forall s,
    forEach SMUpdateJobpartCreated msgs (mkJstm (Some s))
    = (Ok tt, mkJstm (Some (SendMsg.js
         (SendMsg.SendJobPartCreatedMsgs msgs (SendMsg.mkJstm s))))).
Proof.
  induction msgs as [|msg msgs IH]; intros s; [reflexivity|].
  simpl forEach. unfold bindM at 1.
  rewrite SMUpdateJobpartCreated_installed, IH. reflexivity.
Qed.

Section Methods.

Context {E : ETransferStatus}.

Lemma SMUpdateXferDone_installed (msg : xferDoneMsg) (s : ListJobSummaryResponse) :
  SMUpdateXferDone msg (mkJstm (Some s))
  = (Ok tt, mkJstm (Some (Spec.recordTransferDone msg s))).
Proof.
  unfold SMUpdateXferDone, Spec.recordTransferDone, Spec.classify,
    Spec.failureVariants, Spec.skipVariants. simpl.
  rewrite !orb_false_r, <- !orb_assoc.
  destruct (TransferStatus msg =? Success); [reflexivity|].
  destruct (_ || _); [reflexivity|].
  destruct (_ || _); reflexivity.
Qed.

(** A status outside the three buckets touches nothing, installed summary
    or not: no field is accessed. *)
Lemma SMUpdateXferDone_ignored (msg : xferDoneMsg) (jstm : jobStatusManager) :
  Spec.classify (TransferStatus msg) = Spec.Ignored ->
  SMUpdateXferDone msg jstm = (Ok tt, jstm).
Proof.
  unfold SMUpdateXferDone, Spec.classify, Spec.failureVariants, Spec.skipVariants.
  simpl. rewrite !orb_false_r, <- !orb_assoc.
  destruct (TransferStatus msg =? Success); [discriminate|].
  destruct (_ || _); [discriminate|].
  destruct (_ || _); [discriminate|reflexivity].
Qed.

(** A status of one of the three buckets needs the summary: without one
    the first assignment dereferences [nil]. *)
Lemma SMUpdateXferDone_nil (msg : xferDoneMsg) :
  Spec.classify (TransferStatus msg) <> Spec.Ignored ->
  SMUpdateXferDone msg (mkJstm None) = (Crash PanicNilDeref, mkJstm None).
Proof.
  unfold SMUpdateXferDone, Spec.classify, Spec.failureVariants, Spec.skipVariants.
  simpl. rewrite !orb_false_r, <- !orb_assoc.
  destruct (TransferStatus msg =? Success); [reflexivity|].
  destruct (_ || _); [reflexivity|].
  destruct (_ || _); [reflexivity|congruence].
Qed.

Lemma forEach_SMUpdateXferDone (msgs : list xferDoneMsg) :
  forall s,
    forEach SMUpdateXferDone msgs (mkJstm (Some s))
    = (Ok tt, mkJstm (Some (SendMsg.js
         (SendMsg.SendXferDoneMsgs msgs (SendMsg.mkJstm s))))).
Proof.
  induction msgs as [|msg msgs IH]; intros s; [reflexivity|].
  simpl forEach. unfold bindM at 1.
  rewrite SMUpdateXferDone_installed, IH.
  rewrite SendMsgFacts.SendXferDoneMsgs_cons.
  do 4 f_equal. destruct (SendMsg.SendXferDoneMsg msg (SendMsg.mkJstm s)) eqn:Hs.
  f_equal. rewrite <- (SendMsgFacts.SendXferDoneMsg_spec msg (SendMsg.mkJstm s)).
  now rewrite Hs.
Qed.

End Methods.

Lemma InitStatusMgr_fresh (jm : jobMgr) (s : option ListJobSummaryResponse) :
  InitStatusMgr jm s (mkJstm None) = (Ok tt, mkJstm s).
Proof. reflexivity. Qed.

Lemma InitStatusMgr_again (jm : jobMgr) (s : option ListJobSummaryResponse)
    (installed : ListJobSummaryResponse) :
  InitStatusMgr jm s (mkJstm (Some installed))
  = (Crash (PanicError "StatusMgr already init"), mkJstm (Some installed)).
Proof. reflexivity. Qed.

Lemma ListJobSummary_installed (jm : jobMgr) (s : ListJobSummaryResponse) :
  ListJobSummary jm (mkJstm (Some s)) = (Ok s, mkJstm (Some s)).
Proof. reflexivity. Qed.

Lemma ListJobSummary_nil (jm : jobMgr) :
  ListJobSummary jm (mkJstm None) = (Crash PanicNilDeref, mkJstm None).
Proof. reflexivity. Qed.

End SMUpdateFacts.

(** ** The transfer factory *)

Module XferFacts.

Import common Xfer.

Section Factory.

Context {F : EFromTo}.

(** C3, as the code has it.  [computeJobXfer] has three outcomes over the
    codes of [common.FromTo]: for the two implemented pairs it returns
    their routine ([BlobLocal]: [BlobToLocalPrologue], [LocalBlob]:
    [LocalToBlockBlob]); for the two pairs that are defined and not yet
    implemented ([FileLocal], [LocalFile]) it returns no routine but
    [nil], the result that stands for "not supported", and does not
    panic; for every other code it panics. *)
Theorem computeJobXfer_three_outcomes :
  computeJobXfer BlobLocal = Ok (Some BlobToLocalPrologue)
  /\ computeJobXfer LocalBlob = Ok (Some LocalToBlockBlob)
  /\ computeJobXfer FileLocal = Ok None
  /\ computeJobXfer LocalFile = Ok None
  /\ (forall fromTo,
        ~ In fromTo [BlobLocal; LocalBlob; FileLocal; LocalFile] ->
        computeJobXfer fromTo
        = Crash (PanicErrorf "Unrecognized FromTo: %q" (FromTo_String fromTo))).
Proof.
  pose proof EFromTo_distinct as Hd.
  repeat (apply NoDup_cons_iff in Hd; destruct Hd as [? Hd]).
  unfold computeJobXfer; simpl in *.
  repeat split; try intros fromTo Hin;
    repeat match goal with
    | |- context [?a =? ?b] => destruct (Z.eqb_spec a b); simpl
    end; try reflexivity; exfalso; intuition congruence.
Qed.

(** The factory panics on nothing but an unrecognised code. *)
Lemma computeJobXfer_panics_iff (fromTo : FromTo) :
  is_Ok (computeJobXfer fromTo) = false
  <-> ~ In fromTo [BlobLocal; LocalBlob; FileLocal; LocalFile].
Proof.
  unfold computeJobXfer; simpl.
  repeat match goal with
  | |- context [?a =? ?b] => destruct (Z.eqb_spec a b); simpl
  end; split; intros; try discriminate; try reflexivity; intuition congruence.
Qed.

End Factory.

Lemma computeJobXfer_three_outcomes_witness :
  ~ In 9 [3; 1; 4; 2]
  /\ computeJobXfer (F := Samples.sampleFromTo) 9
     = Crash (PanicErrorf "Unrecognized FromTo: %q" "?").
Proof.
  assert (Hnot : ~ In 9 [3; 1; 4; 2]) by (simpl; intuition lia).
  split; [exact Hnot|].
  exact (proj2 (proj2 (proj2 (proj2
    (computeJobXfer_three_outcomes (F := Samples.sampleFromTo))))) 9 Hnot).
Defined.

(** For [FileLocal], one of the four defined pairs, the factory returns
    [nil]: no transfer routine comes back. *)
Lemma computeJobXfer_FileLocal_no_routine :
  computeJobXfer (F := Samples.sampleFromTo) (FileLocal (EFromTo := Samples.sampleFromTo))
  = Ok None
  /\ (forall routine,
        computeJobXfer (F := Samples.sampleFromTo)
          (FileLocal (EFromTo := Samples.sampleFromTo))
        <> Ok (Some routine)).
Proof.
  split; [reflexivity|]. intros routine H. discriminate H.
Qed.

End XferFacts.

(** ** The status manager: the claims on both revisions *)

Module StatusManagerFacts.

Import common Summary GoFacts.

(** C5.  [InitStatusMgr] installs the given summary when none is
    installed; when one is installed it panics ("StatusMgr already init")
    and the manager still holds the summary installed first, unchanged; so
    a second call after a first always panics and keeps the first
    summary. *)
Theorem InitStatusMgr_once (jm : jobMgr) (s : option ListJobSummaryResponse) :
  SMUpdate.InitStatusMgr jm s (SMUpdate.mkJstm None) = (Ok tt, SMUpdate.mkJstm s)
  /\ (forall installed,
        SMUpdate.InitStatusMgr jm s (SMUpdate.mkJstm (Some installed))
        = (Crash (PanicError "StatusMgr already init"),
           SMUpdate.mkJstm (Some installed)))
  /\ (forall first,
        SMUpdate.bindM (SMUpdate.InitStatusMgr jm (Some first))
          (fun _ => SMUpdate.InitStatusMgr jm s) (SMUpdate.mkJstm None)
        = (Crash (PanicError "StatusMgr already init"),
           SMUpdate.mkJstm (Some first))).
Proof. repeat split. Qed.

(** C2, as the code has it.  [ListJobSummary] returns a copy of the stored
    summary and changes no counter and no detail list of it.  In the
    [Send...Msg] revision the copy is taken after the stored summary's
    timestamp has been set to the current time, so the copy carries the
    fresh timestamp.  In the [InitStatusMgr] revision the installed
    summary is returned as it is stored, timestamp included, and the
    manager is unchanged; so after [InitStatusMgr] with a summary and no
    update, [ListJobSummary] returns that summary. *)
Theorem ListJobSummary_copies (jm : jobMgr) :
  (forall now st,
     fst (SendMsg.ListJobSummary jm now st)
     = SendMsg.js (snd (SendMsg.ListJobSummary jm now st))
     /\ Timestamp (fst (SendMsg.ListJobSummary jm now st)) = now
     /\ Spec.same_counters_and_details
          (SendMsg.js (snd (SendMsg.ListJobSummary jm now st))) (SendMsg.js st))
  /\ (forall s,
        SMUpdate.ListJobSummary jm (SMUpdate.mkJstm (Some s))
        = (Ok s, SMUpdate.mkJstm (Some s)))
  /\ (forall s,
        SMUpdate.bindM (SMUpdate.InitStatusMgr jm (Some s))
          (fun _ => SMUpdate.ListJobSummary jm) (SMUpdate.mkJstm None)
        = (Ok s, SMUpdate.mkJstm (Some s))).
Proof.
  split; [|split]; [|reflexivity|reflexivity].
  intros now st. unfold Spec.same_counters_and_details. simpl. repeat split.
Qed.

(** What [ListJobSummary] of the [Send...Msg] revision writes besides the
    timestamp. *)
Lemma ListJobSummary_display_fields (jm : jobMgr) (now : Z)
    (st : SendMsg.jobStatusManager) :
  let s := fst (SendMsg.ListJobSummary jm now st) in
  JobID s = jobID jm /\ CompleteJobOrdered s = false /\ ErrorMsg s = EmptyString.
Proof. simpl. repeat split. Qed.

(** C7.  A part-created message adds its [totalTransfers],
    [fileTransfers], [folderTransfer] and [totalBytesEnumerated] to the
    running totals (each at the width of its counter) and ors [isFinalPart]
    into the fully-enumerated flag, in both revisions; after any sequence
    of messages the flag is its old value or-ed with every [isFinalPart]
    of the sequence, so once true it stays true; and the two messages
    (150, not final, 1000000 bytes), (50, final, 500000 bytes) take the
    zero summary to 200 transfers, flag set, 1500000 bytes enumerated. *)
Theorem part_created_adds_and_ors :
  (forall msg st,
     SendMsg.js (SendMsg.SendJobPartCreatedMsg msg st)
     = Spec.recordPartCreated msg (SendMsg.js st))
  /\ (forall msg s,
        SMUpdate.SMUpdateJobpartCreated msg (SMUpdate.mkJstm (Some s))
        = (Ok tt, SMUpdate.mkJstm (Some (Spec.recordPartCreated msg s))))
  /\ (forall msgs st,
        CompleteJobOrdered (SendMsg.js (SendMsg.SendJobPartCreatedMsgs msgs st))
        = CompleteJobOrdered (SendMsg.js st) || existsb isFinalPart msgs)
  /\ (forall msgs s,
        exists r,
          SMUpdate.forEach SMUpdate.SMUpdateJobpartCreated msgs
            (SMUpdate.mkJstm (Some s))
          = (Ok tt, SMUpdate.mkJstm (Some r))
          /\ CompleteJobOrdered r
             = CompleteJobOrdered s || existsb isFinalPart msgs)
  /\ (let r := SendMsg.js (SendMsg.SendJobPartCreatedMsgs
                 [Samples.partA; Samples.partB] (SendMsg.mkJstm zeroSummary)) in
      TotalTransfers r = 200 /\ CompleteJobOrdered r = true
      /\ TotalBytesEnumerated r = 1500000).
Proof.
  assert (Hflag : forall msgs st,
    CompleteJobOrdered (SendMsg.js (SendMsg.SendJobPartCreatedMsgs msgs st))
    = CompleteJobOrdered (SendMsg.js st) || existsb isFinalPart msgs).
  { induction msgs as [|msg msgs IH]; intros st.
    - simpl. now rewrite orb_false_r.
    - unfold SendMsg.SendJobPartCreatedMsgs in *. simpl fold_left.
      rewrite IH. simpl. now rewrite orb_assoc. }
  split; [reflexivity|]. split; [reflexivity|]. split; [exact Hflag|].
  split; [|vm_compute; repeat split].
  intros msgs s. eexists. split.
  - apply SMUpdateFacts.forEach_SMUpdateJobpartCreated.
  - apply (Hflag msgs (SendMsg.mkJstm s)).
Qed.

(** C10.  A part-created message adds the same [totalBytesEnumerated] to
    [TotalBytesExpected] and to [TotalBytesEnumerated] (each a [uint64]),
    in both revisions and at every summary; so when the two counters are
    equal they are equal after every sequence of part-created messages,
    and from the zero summary they are equal after every such sequence. *)
Theorem part_created_keeps_expected_equal_enumerated
    (msgs : list jobPartCreatedMsg) (s : ListJobSummaryResponse) :
  (forall msg,
     (TotalBytesEnumerated
        (SendMsg.js (SendMsg.SendJobPartCreatedMsg msg (SendMsg.mkJstm s)))
      = uint64 (TotalBytesEnumerated s + totalBytesEnumerated msg)
      /\ TotalBytesExpected
           (SendMsg.js (SendMsg.SendJobPartCreatedMsg msg (SendMsg.mkJstm s)))
         = uint64 (TotalBytesExpected s + totalBytesEnumerated msg))
     /\ (exists r,
           SMUpdate.SMUpdateJobpartCreated msg (SMUpdate.mkJstm (Some s))
           = (Ok tt, SMUpdate.mkJstm (Some r))
           /\ TotalBytesEnumerated r
              = uint64 (TotalBytesEnumerated s + totalBytesEnumerated msg)
           /\ TotalBytesExpected r
              = uint64 (TotalBytesExpected s + totalBytesEnumerated msg)))
  /\ (TotalBytesExpected s = TotalBytesEnumerated s ->
      (let r := SendMsg.js (SendMsg.SendJobPartCreatedMsgs msgs (SendMsg.mkJstm s)) in
       TotalBytesExpected r = TotalBytesEnumerated r)
      /\ (exists r,
            SMUpdate.forEach SMUpdate.SMUpdateJobpartCreated msgs
              (SMUpdate.mkJstm (Some s))
            = (Ok tt, SMUpdate.mkJstm (Some r))
            /\ TotalBytesExpected r = TotalBytesEnumerated r))
  /\ ((let r := SendMsg.js (SendMsg.SendJobPartCreatedMsgs msgs
                   (SendMsg.mkJstm zeroSummary)) in
       TotalBytesExpected r = TotalBytesEnumerated r)
      /\ (exists r,
            SMUpdate.forEach SMUpdate.SMUpdateJobpartCreated msgs
              (SMUpdate.mkJstm (Some zeroSummary))
            = (Ok tt, SMUpdate.mkJstm (Some r))
            /\ TotalBytesExpected r = TotalBytesEnumerated r)).
Proof.
  assert (Hinv : forall s0,
    TotalBytesExpected s0 = TotalBytesEnumerated s0 ->
    TotalBytesExpected
      (SendMsg.js (SendMsg.SendJobPartCreatedMsgs msgs (SendMsg.mkJstm s0)))
    = TotalBytesEnumerated
      (SendMsg.js (SendMsg.SendJobPartCreatedMsgs msgs (SendMsg.mkJstm s0)))).
  { induction msgs as [|msg msgs IH]; intros s0 Heq; [exact Heq|].
    unfold SendMsg.SendJobPartCreatedMsgs in *. simpl fold_left.
    apply (IH (Spec.recordPartCreated msg s0)). simpl. now rewrite Heq. }
  assert (Hboth : forall s0,
    TotalBytesExpected s0 = TotalBytesEnumerated s0 ->
    (let r := SendMsg.js (SendMsg.SendJobPartCreatedMsgs msgs (SendMsg.mkJstm s0)) in
     TotalBytesExpected r = TotalBytesEnumerated r)
    /\ (exists r,
          SMUpdate.forEach SMUpdate.SMUpdateJobpartCreated msgs
            (SMUpdate.mkJstm (Some s0))
          = (Ok tt, SMUpdate.mkJstm (Some r))
          /\ TotalBytesExpected r = TotalBytesEnumerated r)).
  { intros s0 Heq. split; [exact (Hinv s0 Heq)|].
    eexists. split; [apply SMUpdateFacts.forEach_SMUpdateJobpartCreated|].
    exact (Hinv s0 Heq). }
  split; [|split].
  - intros msg. split; [split; reflexivity|].
    eexists. split; [apply SMUpdateFacts.SMUpdateJobpartCreated_installed|].
    split; reflexivity.
  - apply Hboth.
  - apply Hboth. reflexivity.
Qed.

Section Outcomes.

Context {E : ETransferStatus}.

(** C6.  A transfer-done message falls into exactly one bucket by its
    status, in both revisions: [Success] increments the completed count
    and adds the transfer's size to the transferred bytes; [Failed],
    [TierAvailabilityCheckFailure] and [BlobTierFailure] increment the
    failed count and append the message to the failure list;
    [SkippedEntityAlreadyExists] and [SkippedBlobHasSnapshots] increment
    the skipped count and append the message to the skip list; every
    other status leaves the manager as it is. *)
Theorem xfer_done_buckets (msg : xferDoneMsg) :
  (TransferStatus msg = Success ->
     (forall st,
        SendMsg.js (SendMsg.SendXferDoneMsg msg st)
        = Spec.countCompleted msg (SendMsg.js st))
     /\ (forall s,
           SMUpdate.SMUpdateXferDone msg (SMUpdate.mkJstm (Some s))
           = (Ok tt, SMUpdate.mkJstm (Some (Spec.countCompleted msg s)))))
  /\ (In (TransferStatus msg)
         [Failed; TierAvailabilityCheckFailure; BlobTierFailure] ->
      (forall st,
         SendMsg.js (SendMsg.SendXferDoneMsg msg st)
         = Spec.countFailed msg (SendMsg.js st))
      /\ (forall s,
            SMUpdate.SMUpdateXferDone msg (SMUpdate.mkJstm (Some s))
            = (Ok tt, SMUpdate.mkJstm (Some (Spec.countFailed msg s)))))
  /\ (In (TransferStatus msg)
         [SkippedEntityAlreadyExists; SkippedBlobHasSnapshots] ->
      (forall st,
         SendMsg.js (SendMsg.SendXferDoneMsg msg st)
         = Spec.countSkipped msg (SendMsg.js st))
      /\ (forall s,
            SMUpdate.SMUpdateXferDone msg (SMUpdate.mkJstm (Some s))
            = (Ok tt, SMUpdate.mkJstm (Some (Spec.countSkipped msg s)))))
  /\ (~ In (TransferStatus msg)
          [Success; Failed; TierAvailabilityCheckFailure; BlobTierFailure;
           SkippedEntityAlreadyExists; SkippedBlobHasSnapshots] ->
      (forall st, SendMsg.SendXferDoneMsg msg st = st)
      /\ (forall st, SMUpdate.SMUpdateXferDone msg st = (Ok tt, st))).
Proof.
  destruct SendMsgFacts.classify_known as [Hc [Hf [Hs Hi]]].
  repeat split; intros;
    rewrite ?SendMsgFacts.SendXferDoneMsg_spec,
            ?SMUpdateFacts.SMUpdateXferDone_installed;
    unfold Spec.recordTransferDone.
  - now rewrite H, Hc.
  - now rewrite H, Hc.
  - now rewrite (Hf _ H).
  - now rewrite (Hf _ H).
  - now rewrite (Hs _ H).
  - now rewrite (Hs _ H).
  - destruct st as [s].
    pose proof (SendMsgFacts.SendXferDoneMsg_spec msg (SendMsg.mkJstm s)) as Hspec.
    unfold Spec.recordTransferDone in Hspec. rewrite (Hi _ H) in Hspec.
    destruct (SendMsg.SendXferDoneMsg msg (SendMsg.mkJstm s)). simpl in Hspec.
    now subst.
  - apply SMUpdateFacts.SMUpdateXferDone_ignored. now apply Hi.
Qed.

(** C9.  The same outcomes recorded in two orders, from the same summary,
    give the same completed, failed and skipped counts, the same
    transferred bytes, and failure and skip lists with the same
    elements, in both revisions. *)
Theorem xfer_done_order_independent (l1 l2 : list xferDoneMsg) :
  Permutation l1 l2 ->
  (forall st,
     Spec.same_totals (SendMsg.js (SendMsg.SendXferDoneMsgs l1 st))
                      (SendMsg.js (SendMsg.SendXferDoneMsgs l2 st)))
  /\ (forall s,
        exists r1 r2,
          SMUpdate.forEach SMUpdate.SMUpdateXferDone l1 (SMUpdate.mkJstm (Some s))
          = (Ok tt, SMUpdate.mkJstm (Some r1))
          /\ SMUpdate.forEach SMUpdate.SMUpdateXferDone l2 (SMUpdate.mkJstm (Some s))
             = (Ok tt, SMUpdate.mkJstm (Some r2))
          /\ Spec.same_totals r1 r2).
Proof.
  intros Hperm.
  assert (Hsend : forall st,
    Spec.same_totals (SendMsg.js (SendMsg.SendXferDoneMsgs l1 st))
                     (SendMsg.js (SendMsg.SendXferDoneMsgs l2 st))).
  { intros st. apply SendMsgFacts.same_up_to_order_totals.
    apply SendMsgFacts.SendXferDoneMsgs_permutation; [exact Hperm|].
    apply SendMsgFacts.same_up_to_order_refl. }
  split; [exact Hsend|].
  intros s. do 2 eexists.
  split; [apply SMUpdateFacts.forEach_SMUpdateXferDone|].
  split; [apply SMUpdateFacts.forEach_SMUpdateXferDone|].
  apply Hsend.
Qed.

End Outcomes.

End StatusManagerFacts.

(** ** The status manager and the status word on the sample data *)

Module StatusManagerExamples.

Import common Summary Samples StatusManagerFacts.

(** Scenario 1 of the specification: [Failed], then a progress report. *)
Example SetTransferStatus_scenario :
  Plan.TransferStatus
    (Plan.SetTransferStatus_seq (E := sampleTransferStatus) [-1; Started]
       sampleTransfer)
  = -1.
Proof. reflexivity. Qed.

(** Scenario 3 of the specification: one success of 1024 bytes, then one
    blob-tier failure. *)
Example SendXferDoneMsg_scenario :
  let r := SendMsg.js (SendMsg.SendXferDoneMsgs (E := sampleTransferStatus)
             [sampleDetail 2 1024; sampleDetail (-2) 0]
             (SendMsg.mkJstm zeroSummary)) in
  TransfersCompleted r = 1 /\ TotalBytesTransferred r = 1024
  /\ TransfersFailed r = 1 /\ List.length (FailedTransfers r) = 1%nat.
Proof. vm_compute. repeat split. Qed.

(** The counters wrap at their width. *)
Example SendJobPartCreatedMsg_wraps :
  TotalTransfers (SendMsg.js (SendMsg.SendJobPartCreatedMsg
    (mkPartCreated 1 false 0 0 0)
    (SendMsg.mkJstm (set_TotalTransfers 4294967295 zeroSummary)))) = 0.
Proof. reflexivity. Qed.

(** The stored flag is true before the call and false after it
    ([Send...Msg] revision); the summary returned by the [InitStatusMgr]
    revision carries the timestamp it was installed with. *)
Lemma ListJobSummary_flag_and_timestamp :
  CompleteJobOrdered (SendMsg.js (SendMsg.mkJstm sampleSummary)) = true
  /\ CompleteJobOrdered
       (SendMsg.js (snd (SendMsg.ListJobSummary sampleJobMgr 2000
                           (SendMsg.mkJstm sampleSummary)))) = false
  /\ SMUpdate.bindM (SMUpdate.InitStatusMgr sampleJobMgr (Some sampleSummary))
       (fun _ => SMUpdate.ListJobSummary sampleJobMgr) (SMUpdate.mkJstm None)
     = (Ok sampleSummary, SMUpdate.mkJstm (Some sampleSummary))
  /\ Timestamp sampleSummary = 1000.
Proof. repeat split. Qed.

Lemma part_created_keeps_expected_equal_enumerated_witness :
  TotalBytesExpected sampleSummary = TotalBytesEnumerated sampleSummary
  /\ TotalBytesExpected
       (SendMsg.js (SendMsg.SendJobPartCreatedMsgs [partA; partB]
                      (SendMsg.mkJstm sampleSummary)))
     = TotalBytesEnumerated
       (SendMsg.js (SendMsg.SendJobPartCreatedMsgs [partA; partB]
                      (SendMsg.mkJstm sampleSummary))).
Proof.
  assert (Heq : TotalBytesExpected sampleSummary = TotalBytesEnumerated sampleSummary)
    by reflexivity.
  split; [exact Heq|].
  exact (proj1 (proj1 (proj2 (part_created_keeps_expected_equal_enumerated
                                [partA; partB] sampleSummary)) Heq)).
Defined.

Lemma xfer_done_buckets_witness :
  SendMsg.js (SendMsg.SendXferDoneMsg (E := sampleTransferStatus)
                (sampleDetail 2 1024) (SendMsg.mkJstm sampleSummary))
  = Spec.countCompleted (sampleDetail 2 1024) sampleSummary
  /\ SendMsg.js (SendMsg.SendXferDoneMsg (E := sampleTransferStatus)
                   (sampleDetail (-2) 7) (SendMsg.mkJstm sampleSummary))
     = Spec.countFailed (sampleDetail (-2) 7) sampleSummary
  /\ SendMsg.js (SendMsg.SendXferDoneMsg (E := sampleTransferStatus)
                   (sampleDetail (-4) 9) (SendMsg.mkJstm sampleSummary))
     = Spec.countSkipped (sampleDetail (-4) 9) sampleSummary
  /\ SMUpdate.SMUpdateXferDone (E := sampleTransferStatus)
       (sampleDetail Started 5) (SMUpdate.mkJstm None)
     = (Ok tt, SMUpdate.mkJstm None).
Proof.
  split; [|split; [|split]].
  - apply (proj1 (xfer_done_buckets (E := sampleTransferStatus)
                    (sampleDetail 2 1024))).
    reflexivity.
  - apply (proj1 (proj2 (xfer_done_buckets (E := sampleTransferStatus)
                           (sampleDetail (-2) 7)))).
    simpl. tauto.
  - apply (proj1 (proj2 (proj2 (xfer_done_buckets (E := sampleTransferStatus)
                                  (sampleDetail (-4) 9))))).
    simpl. tauto.
  - apply (proj2 (proj2 (proj2 (xfer_done_buckets (E := sampleTransferStatus)
                                  (sampleDetail Started 5))))).
    simpl. unfold Started. intuition lia.
Defined.

Lemma xfer_done_order_independent_witness :
  Permutation
    [sampleDetail 2 1024; sampleDetail (-2) 7; sampleDetail (-4) 9]
    [sampleDetail (-4) 9; sampleDetail 2 1024; sampleDetail (-2) 7]
  /\ Spec.same_totals
       (SendMsg.js (SendMsg.SendXferDoneMsgs (E := sampleTransferStatus)
          [sampleDetail 2 1024; sampleDetail (-2) 7; sampleDetail (-4) 9]
          (SendMsg.mkJstm sampleSummary)))
       (SendMsg.js (SendMsg.SendXferDoneMsgs (E := sampleTransferStatus)
          [sampleDetail (-4) 9; sampleDetail 2 1024; sampleDetail (-2) 7]
          (SendMsg.mkJstm sampleSummary))).
Proof.
  assert (Hperm : Permutation
    [sampleDetail 2 1024; sampleDetail (-2) 7; sampleDetail (-4) 9]
    [sampleDetail (-4) 9; sampleDetail 2 1024; sampleDetail (-2) 7]).
  { apply Permutation_sym.
    apply (Permutation_cons_app [sampleDetail 2 1024; sampleDetail (-2) 7] []).
    rewrite app_nil_r. apply Permutation_refl. }
  split; [exact Hperm|].
  exact (proj1 (xfer_done_order_independent (E := sampleTransferStatus) _ _ Hperm)
           (SendMsg.mkJstm sampleSummary)).
Defined.

End StatusManagerExamples.

(** * Further properties of the code *)

(** ** The plan file: status words *)

Module PlanStatusFacts.

Import common Plan GoFacts PlanFacts Runs.

Lemma last_cons_default {A : Type} (l : list A) (x d : A) :
  last (x :: l) d = last l x.
Proof.
  revert x d. induction l as [|y l IH]; intros x d; [reflexivity|].
  change (last (x :: y :: l) d) with (last (y :: l) d).
  now rewrite (IH y d), (IH y x).
Qed.

Section Accessors.

Context {E : ETransferStatus}.

(** The status read after a sequence of [SetTransferStatus] calls that run
    one after the other: [Failed] when the record was [Failed] or some call
    set [Failed]; in every other case the status of the last call (the
    record's own status when there was no call). *)
Theorem SetTransferStatus_seq_final (statuses : list common.TransferStatus) :
  forall jppt,
    TransferStatus (SetTransferStatus_seq statuses jppt)
    = if (TransferStatus jppt =? Failed) || existsb (Z.eqb Failed) statuses
      then Failed
      else last statuses (TransferStatus jppt).
Proof.
  induction statuses as [|s statuses IH]; intros jppt.
  - simpl. rewrite orb_false_r.
    destruct (Z.eqb_spec (TransferStatus jppt) Failed); congruence.
  - change (SetTransferStatus_seq (s :: statuses) jppt)
      with (SetTransferStatus_seq statuses (SetTransferStatus [] s jppt)).
    rewrite IH, SetTransferStatus_alone, last_cons_default. simpl existsb.
    destruct (Z.eqb_spec (TransferStatus jppt) Failed) as [Hf|Hf].
    + rewrite Hf, Z.eqb_refl. reflexivity.
    + simpl. rewrite (Z.eqb_sym Failed s).
      destruct (Z.eqb_spec s Failed); reflexivity.
Qed.

Lemma SetTransferStatus_calls_cons (others : list (Z -> Z))
    (status : common.TransferStatus)
    (calls : list (list (Z -> Z) * common.TransferStatus))
    (jppt : JobPartPlanTransfer) :
  SetTransferStatus_calls ((others, status) :: calls) jppt
  = SetTransferStatus_calls calls (SetTransferStatus others status jppt).
Proof. reflexivity. Qed.

(** Calls that meet contention.  When what the other workers store keeps
    [Failed] (as their own [SetTransferStatus] calls do), a record that is
    [Failed], or on which one of the calls sets [Failed], is [Failed] after
    all the calls; and no call, contended or not, writes any field but the
    status word. *)
Theorem SetTransferStatus_calls_sticky
    (calls : list (list (Z -> Z) * common.TransferStatus)) :
  Forall (fun call => Forall (fun w => w Failed = Failed) (fst call)) calls ->
  forall jppt,
    (TransferStatus jppt = Failed \/ In Failed (map snd calls) ->
     TransferStatus (SetTransferStatus_calls calls jppt) = Failed)
    /\ SrcOffset (SetTransferStatus_calls calls jppt) = SrcOffset jppt
    /\ SrcLength (SetTransferStatus_calls calls jppt) = SrcLength jppt
    /\ DstLength (SetTransferStatus_calls calls jppt) = DstLength jppt
    /\ ModifiedTime (SetTransferStatus_calls calls jppt) = ModifiedTime jppt
    /\ SourceSize (SetTransferStatus_calls calls jppt) = SourceSize jppt
    /\ CompletionTime (SetTransferStatus_calls calls jppt) = CompletionTime jppt.
Proof.
  induction calls as [|[others status] calls IH]; intros Hall jppt.
  - simpl. repeat split. intros [Hf|[]]. exact Hf.
  - inversion Hall as [|? ? Hothers Hrest]; subst. simpl in Hothers.
    rewrite SetTransferStatus_calls_cons.
    destruct (IH Hrest (SetTransferStatus others status jppt))
      as [Hst [H1 [H2 [H3 [H4 [H5 H6]]]]]].
    destruct (SetTransferStatus_frame others status jppt)
      as [F1 [F2 [F3 [F4 [F5 F6]]]]].
    repeat split; try congruence.
    intros [Hf|Hin]; apply Hst.
    + left. now apply SetTransferStatus_contended_keeps_Failed.
    + simpl in Hin. destruct Hin as [Heq|Hin]; [|now right].
      left. subst status. apply SetTransferStatus_contended_sets_Failed.
Qed.

(** The job status has no sticky value: after a sequence of stores it is
    the last one stored; and a store changes nothing [Transfer] depends
    on. *)
Theorem SetJobStatus_seq_last {L : PlanLayout} (statuses : list Z)
    (h : JobPartPlanHeader) :
  JobStatus (SetJobStatus_seq statuses h) = last statuses (JobStatus h)
  /\ (forall jpph idx,
        Transfer jpph (SetJobStatus_seq statuses h) idx = Transfer jpph h idx).
Proof.
  revert h. induction statuses as [|s statuses IH]; intros h; [split; reflexivity|].
  change (SetJobStatus_seq (s :: statuses) h)
    with (SetJobStatus_seq statuses (SetJobStatus s h)).
  destruct (IH (SetJobStatus s h)) as [Hs Hn].
  rewrite Hs, last_cons_default. split; [reflexivity|].
  intros jpph idx. rewrite Hn. reflexivity.
Qed.

End Accessors.

Lemma SetTransferStatus_calls_sticky_witness :
  Forall (fun call => Forall (fun w => w (-1) = -1) (fst call))
    [([fun v : Z => if v =? -1 then v else 5], -1);
     ([fun v : Z => if v =? -1 then v else 7], 1)]
  /\ Plan.TransferStatus
       (SetTransferStatus_calls (E := Samples.sampleTransferStatus)
          [([fun v : Z => if v =? -1 then v else 5], -1);
           ([fun v : Z => if v =? -1 then v else 7], 1)]
          Samples.sampleTransfer)
     = -1.
Proof.
  assert (Hall : Forall (fun call => Forall (fun w => w (-1) = -1) (fst call))
    [([fun v : Z => if v =? -1 then v else 5], -1);
     ([fun v : Z => if v =? -1 then v else 7], 1)])
    by (repeat constructor).
  split; [exact Hall|].
  apply (proj1 (SetTransferStatus_calls_sticky (E := Samples.sampleTransferStatus)
                  _ Hall Samples.sampleTransfer)).
  right. simpl. tauto.
Defined.

End PlanStatusFacts.

(** ** The plan file: records and strings in memory *)

Module PlanMemoryFacts.

Import common Plan GoFacts PlanFacts.

Section Loads.

Variable m : AddressSpace.

(** What a successful load returns is what the memory holds. *)
Lemma load_bytes_Ok_inv (n : nat) :
  forall (a : Z) (bs : list byte),
    load_bytes m a n = Ok bs ->
    List.length bs = n
    /\ (forall k, (k < n)%nat -> m (uintptr (a + Z.of_nat k)) = Some (nth k bs x00)).
Proof.
  induction n as [|n IH]; intros a bs H; simpl in H.
  - inversion H; subst. split; [reflexivity|intros k Hk; lia].
  - destruct (m (uintptr a)) as [b|] eqn:Hm; [|discriminate].
    destruct (load_bytes m (a + 1) n) as [bs'|] eqn:Hl; simpl in H; [|discriminate].
    inversion H; subst. destruct (IH _ _ Hl) as [Hlen Hall].
    split; [simpl; lia|].
    intros [|k] Hk.
    + simpl. now rewrite Z.add_0_r.
    + simpl nth. rewrite <- (Hall k) by lia. f_equal. f_equal. lia.
Qed.

(** A load sees only the addresses of its range. *)
Lemma load_bytes_ext (m' : AddressSpace) (n : nat) :
  forall a,
    (forall k, (k < n)%nat ->
       m' (uintptr (a + Z.of_nat k)) = m (uintptr (a + Z.of_nat k))) ->
    load_bytes m' a n = load_bytes m a n.
Proof.
  induction n as [|n IH]; intros a Hagree; [reflexivity|]. simpl.
  assert (H0 : m' (uintptr (a + Z.of_nat 0)) = m (uintptr (a + Z.of_nat 0)))
    by (apply Hagree; lia).
  simpl in H0. rewrite Z.add_0_r in H0. rewrite H0.
  rewrite (IH (a + 1)); [reflexivity|].
  intros k Hk.
  assert (Hk' : (S k < S n)%nat) by lia.
  specialize (Hagree (S k) Hk').
  replace (a + 1 + Z.of_nat k) with (a + Z.of_nat (S k)) by lia. exact Hagree.
Qed.

Lemma le_unsigned_range (bs : list byte) :
  0 <= le_unsigned bs < 256 ^ Z.of_nat (List.length bs).
Proof.
  induction bs as [|b bs IH]; [simpl; lia|].
  cbn [le_unsigned List.length]. rewrite Nat2Z.inj_succ, Z.pow_succ_r by lia.
  assert (Hb : 0 <= Z.of_N (Byte.to_N b) < 256).
  { pose proof (Byte.to_N_bounded b). lia. }
  lia.
Qed.

(** A two-byte field is read as an [int16]. *)
Lemma load_int16_range (a v : Z) :
  load_int m a 2 = Ok v -> -32768 <= v < 32768.
Proof.
  unfold load_int. destruct (load_bytes m a 2) as [bs|] eqn:Hl; simpl; [|discriminate].
  intros H; inversion H; subst; clear H.
  destruct (load_bytes_Ok_inv _ _ _ Hl) as [Hlen _].
  pose proof (le_unsigned_range bs) as Hr. rewrite Hlen in Hr.
  change (256 ^ Z.of_nat 2) with 65536 in Hr.
  unfold signed. change (8 * Z.of_nat 2) with 16.
  change (2 ^ (16 - 1)) with 32768. change (2 ^ 16) with 65536.
  destruct (Z.ltb_spec (le_unsigned bs) 32768); lia.
Qed.

End Loads.

Section Accessors.

Context {L : PlanLayout}.

(** [TransferSrcDstStrings] once the record's three fields are known. *)
Lemma TransferSrcDstStrings_fields (m : AddressSpace) (jpph : Z)
    (h : JobPartPlanHeader) (idx jppt srcOffset srcLength dstLength : Z) :
  Transfer jpph h idx = Ok jppt ->
  load_int m (jppt + offsetof_SrcOffset) 8 = Ok srcOffset ->
  load_int m (jppt + offsetof_SrcLength) 2 = Ok srcLength ->
  load_int m (jppt + offsetof_DstLength) 2 = Ok dstLength ->
  TransferSrcDstStrings m jpph h idx
  = (source <- slicebytetostring m (jpph + srcOffset) srcLength ;;
     destination <- slicebytetostring m (jpph + srcOffset + srcLength) dstLength ;;
     Ok (source, destination))%go.
Proof.
  intros Ht Hoff Hsl Hdl. unfold TransferSrcDstStrings.
  rewrite Ht. simpl. rewrite Hoff. simpl. rewrite Hsl. simpl. rewrite Hdl. simpl.
  unfold slicebytetostring.
  rewrite (load_bytes_congr m _ _ (jpph + srcOffset)) by wrap_lia.
  rewrite (load_bytes_congr m (Z.to_nat dstLength) _ (jpph + srcOffset + srcLength))
    by wrap_lia.
  reflexivity.
Qed.


(** What [TransferSrcDstStrings] returns is what the memory holds: the
    source has [SrcLength] bytes, the bytes at header address +
    [SrcOffset]; the destination has [DstLength] bytes, the bytes that
    follow the source; and neither is longer than an [int16] can say. *)
Theorem TransferSrcDstStrings_sound (m : AddressSpace) (jpph : Z)
    (h : JobPartPlanHeader) (idx jppt srcOffset srcLength dstLength : Z)
    (source destination : list byte) :
  Transfer jpph h idx = Ok jppt ->
  load_int m (jppt + offsetof_SrcOffset) 8 = Ok srcOffset ->
  load_int m (jppt + offsetof_SrcLength) 2 = Ok srcLength ->
  load_int m (jppt + offsetof_DstLength) 2 = Ok dstLength ->
  TransferSrcDstStrings m jpph h idx = Ok (source, destination) ->
  Z.of_nat (List.length source) = srcLength
  /\ Z.of_nat (List.length destination) = dstLength
  /\ Z.of_nat (List.length source) <= 32767
  /\ Z.of_nat (List.length destination) <= 32767
  /\ (forall k, (k < List.length source)%nat ->
        m (uintptr (jpph + srcOffset + Z.of_nat k)) = Some (nth k source x00))
  /\ (forall k, (k < List.length destination)%nat ->
        m (uintptr (jpph + srcOffset + srcLength + Z.of_nat k))
        = Some (nth k destination x00)).
Proof.
  intros Ht Hoff Hsl Hdl H.
  rewrite (TransferSrcDstStrings_fields _ _ _ _ _ _ _ _ Ht Hoff Hsl Hdl) in H.
  pose proof (load_int16_range _ _ _ Hsl) as Hrs.
  pose proof (load_int16_range _ _ _ Hdl) as Hrd.
  unfold slicebytetostring in H.
  destruct (Z.ltb_spec srcLength 0); simpl in H; [discriminate|].
  destruct (load_bytes m _ (Z.to_nat srcLength)) as [s|] eqn:Hsrc; simpl in H;
    [|discriminate].
  destruct (Z.ltb_spec dstLength 0); simpl in H; [discriminate|].
  destruct (load_bytes m _ (Z.to_nat dstLength)) as [d|] eqn:Hdst; simpl in H;
    [|discriminate].
  inversion H; subst s d; clear H.
  destruct (load_bytes_Ok_inv _ _ _ _ Hsrc) as [Hls Hbs].
  destruct (load_bytes_Ok_inv _ _ _ _ Hdst) as [Hld Hbd].
  split; [lia|]. split; [lia|]. split; [lia|]. split; [lia|]. split.
  - intros k Hk. apply Hbs. lia.
  - intros k Hk. apply Hbd. lia.
Qed.

Lemma TransferSrcDstStrings_NumTransfers (m : AddressSpace) (jpph : Z)
    (h h' : JobPartPlanHeader) (idx : Z) :
  NumTransfers h' = NumTransfers h ->
  TransferSrcDstStrings m jpph h' idx = TransferSrcDstStrings m jpph h idx.
Proof.
  intros Hn. unfold TransferSrcDstStrings, Transfer. rewrite Hn. reflexivity.
Qed.

(** What the call reads: the [NumTransfers] field of the header, the first
    twelve bytes of the record, and the two strings.  Two memories, each
    with its header at [jpph], that agree on these bytes give the same
    result; stores to the status words, to other records or to other
    strings do not change what is returned. *)
Theorem TransferSrcDstStrings_reads_only {HL : MappedHeader.HeaderLayout}
    (m m' : AddressSpace) (jpph : Z) (h h' : JobPartPlanHeader)
    (idx jppt srcOffset srcLength dstLength : Z) :
  MappedHeader.header_at m jpph h ->
  MappedHeader.header_at m' jpph h' ->
  Transfer jpph h idx = Ok jppt ->
  load_int m (jppt + offsetof_SrcOffset) 8 = Ok srcOffset ->
  load_int m (jppt + offsetof_SrcLength) 2 = Ok srcLength ->
  load_int m (jppt + offsetof_DstLength) 2 = Ok dstLength ->
  0 <= srcLength -> 0 <= dstLength ->
  (forall k, 0 <= k < 4 ->
     m' (uintptr (jpph + MappedHeader.offsetof_NumTransfers + k))
     = m (uintptr (jpph + MappedHeader.offsetof_NumTransfers + k))) ->
  (forall k, 0 <= k < 12 -> m' (uintptr (jppt + k)) = m (uintptr (jppt + k))) ->
  (forall k, 0 <= k < srcLength + dstLength ->
     m' (uintptr (jpph + srcOffset + k)) = m (uintptr (jpph + srcOffset + k))) ->
  TransferSrcDstStrings m' jpph h' idx = TransferSrcDstStrings m jpph h idx.
Proof.
  intros Hh Hh' Ht Hoff Hsl Hdl Hs0 Hd0 Hhdr Hrec Hstr.
  assert (Hn : NumTransfers h' = NumTransfers h).
  { unfold MappedHeader.header_at, MappedHeader.load_NumTransfers in Hh, Hh'.
    rewrite (load_bytes_ext m m') in Hh'
      by (intros k Hk; apply Hhdr; lia).
    rewrite Hh in Hh'. congruence. }
  rewrite (TransferSrcDstStrings_NumTransfers m' jpph h h' idx Hn).
  assert (Hfield : forall o n, 0 <= o -> o + Z.of_nat n <= 12 ->
            load_int m' (jppt + o) n = load_int m (jppt + o) n).
  { intros o n Ho Hno. unfold load_int. rewrite (load_bytes_ext m m'); [reflexivity|].
    intros k Hk. rewrite <- !Z.add_assoc. apply Hrec. lia. }
  rewrite (TransferSrcDstStrings_fields m _ _ _ _ _ _ _ Ht Hoff Hsl Hdl).
  rewrite (TransferSrcDstStrings_fields m' _ _ _ _ srcOffset srcLength dstLength Ht).
  - unfold slicebytetostring.
    rewrite (load_bytes_ext m m' (Z.to_nat srcLength));
      [|intros k Hk; apply Hstr; lia].
    rewrite (load_bytes_ext m m' (Z.to_nat dstLength)); [reflexivity|].
    intros k Hk. rewrite <- (Z.add_assoc (jpph + srcOffset)). apply Hstr. lia.
  - rewrite <- Hoff. apply Hfield; unfold offsetof_SrcOffset; simpl; lia.
  - rewrite <- Hsl. apply Hfield; unfold offsetof_SrcLength; simpl; lia.
  - rewrite <- Hdl. apply Hfield; unfold offsetof_DstLength; simpl; lia.
Qed.

(** When the records lie inside the address space, every record lies
    behind the header and inside the area of [NumTransfers] records, and
    the record of the next index starts where this one ends. *)
Theorem Transfer_records_area (jpph : Z) (h : JobPartPlanHeader) (idx : Z) :
  0 <= jpph ->
  jpph + sizeof_JobPartPlanHeader
    + NumTransfers h * sizeof_JobPartPlanTransfer <= 2 ^ 64 ->
  0 <= idx < NumTransfers h ->
  exists p,
    Transfer jpph h idx = Ok p
    /\ jpph + sizeof_JobPartPlanHeader <= p
    /\ p + sizeof_JobPartPlanTransfer
       <= jpph + sizeof_JobPartPlanHeader
          + NumTransfers h * sizeof_JobPartPlanTransfer
    /\ (idx + 1 < NumTransfers h ->
        Transfer jpph h (idx + 1) = Ok (p + sizeof_JobPartPlanTransfer)).
Proof.
  intros Hb Hfit Hi.
  pose proof sizeof_JobPartPlanHeader_range as Hs.
  unfold sizeof_JobPartPlanTransfer in *.
  eexists. rewrite Transfer_address by lia.
  unfold uintptr. rewrite wrap_small by (unfold sizeof_JobPartPlanTransfer; lia).
  unfold sizeof_JobPartPlanTransfer.
  repeat split; try lia.
  intros Hnext. rewrite Transfer_address by lia.
  unfold uintptr. rewrite wrap_small by (unfold sizeof_JobPartPlanTransfer; lia).
  unfold sizeof_JobPartPlanTransfer. f_equal. lia.
Qed.

End Accessors.

End PlanMemoryFacts.

(** ** The plan file in memory, on the sample data *)

Module PlanMemoryExamples.

Import common Plan Samples GoFacts PlanFacts PlanMemoryFacts.

Lemma sample_record_fields :
  Transfer (L := sampleLayout) (Plan sampleMMF) sampleHeader 0 = Ok 67136
  /\ load_int (sampleMemory x0f) (67136 + offsetof_SrcOffset) 8 = Ok 1648
  /\ load_int (sampleMemory x0f) (67136 + offsetof_SrcLength) 2 = Ok 8
  /\ load_int (sampleMemory x0f) (67136 + offsetof_DstLength) 2 = Ok 15.
Proof. vm_compute. repeat split. Qed.

Lemma TransferSrcDstStrings_sound_witness :
  TransferSrcDstStrings (L := sampleLayout) (sampleMemory x0f)
    (Plan sampleMMF) sampleHeader 0
  = Ok (sampleSrc, sampleDst)
  /\ Z.of_nat (List.length sampleSrc) = 8
  /\ Z.of_nat (List.length sampleDst) = 15
  /\ sampleMemory x0f (uintptr (Plan sampleMMF + 1648 + 8 + Z.of_nat 14))
     = Some (nth 14 sampleDst x00).
Proof.
  destruct sample_record_fields as [Ht [Hoff [Hsl Hdl]]].
  assert (Hr : TransferSrcDstStrings (L := sampleLayout) (sampleMemory x0f)
                 (Plan sampleMMF) sampleHeader 0
               = Ok (sampleSrc, sampleDst)) by (vm_compute; reflexivity).
  split; [exact Hr|].
  destruct (TransferSrcDstStrings_sound (L := sampleLayout) (sampleMemory x0f)
              (Plan sampleMMF) sampleHeader 0 67136 1648 8 15 sampleSrc sampleDst
              Ht Hoff Hsl Hdl Hr)
    as [Hs [Hd [_ [_ [_ Hbytes]]]]].
  split; [exact Hs|]. split; [exact Hd|].
  apply (Hbytes 14%nat). simpl. lia.
Defined.

(** A store to the record's status word (byte 40 of the record) does not
    change the strings read. *)
Lemma TransferSrcDstStrings_reads_only_witness :
  MappedHeader.header_at (HL := MappedSamples.sampleHeaderLayout)
    MappedSamples.sampleMappedMemory (Plan sampleMMF) sampleHeader
  /\ MappedSamples.sampleMappedMemory 67176 = Some x00
  /\ MappedSamples.sampleMappedMemory_status 67176 = Some x02
  /\ TransferSrcDstStrings (L := sampleLayout)
       MappedSamples.sampleMappedMemory_status (Plan sampleMMF) sampleHeader 0
     = TransferSrcDstStrings (L := sampleLayout)
         MappedSamples.sampleMappedMemory (Plan sampleMMF) sampleHeader 0.
Proof.
  assert (Hh : MappedHeader.header_at (HL := MappedSamples.sampleHeaderLayout)
                 MappedSamples.sampleMappedMemory (Plan sampleMMF) sampleHeader)
    by (vm_compute; reflexivity).
  assert (Hh' : MappedHeader.header_at (HL := MappedSamples.sampleHeaderLayout)
                  MappedSamples.sampleMappedMemory_status (Plan sampleMMF) sampleHeader)
    by (vm_compute; reflexivity).
  assert (Ht : Transfer (L := sampleLayout) (Plan sampleMMF) sampleHeader 0 = Ok 67136)
    by (vm_compute; reflexivity).
  assert (Hoff : load_int MappedSamples.sampleMappedMemory
                   (67136 + offsetof_SrcOffset) 8 = Ok 1648)
    by (vm_compute; reflexivity).
  assert (Hsl : load_int MappedSamples.sampleMappedMemory
                  (67136 + offsetof_SrcLength) 2 = Ok 8)
    by (vm_compute; reflexivity).
  assert (Hdl : load_int MappedSamples.sampleMappedMemory
                  (67136 + offsetof_DstLength) 2 = Ok 15)
    by (vm_compute; reflexivity).
  split; [exact Hh|]. split; [vm_compute; reflexivity|].
  split; [vm_compute; reflexivity|].
  apply (TransferSrcDstStrings_reads_only (L := sampleLayout)
           (HL := MappedSamples.sampleHeaderLayout)
           MappedSamples.sampleMappedMemory MappedSamples.sampleMappedMemory_status
           (Plan sampleMMF) sampleHeader sampleHeader 0 67136 1648 8 15
           Hh Hh' Ht Hoff Hsl Hdl).
  - lia.
  - lia.
  - intros k Hk. unfold MappedSamples.sampleMappedMemory_status.
    unfold uintptr, Plan, sampleMMF, Data, sampleBase.
    change (MappedHeader.offsetof_NumTransfers
              (HeaderLayout := MappedSamples.sampleHeaderLayout)) with 36.
    rewrite wrap_small by lia.
    destruct (Z.eqb_spec (65536 + 36 + k) 67176); [lia|reflexivity].
  - intros k Hk. unfold MappedSamples.sampleMappedMemory_status.
    unfold uintptr. rewrite wrap_small by lia.
    destruct (Z.eqb_spec (67136 + k) 67176); [lia|reflexivity].
  - intros k Hk. unfold MappedSamples.sampleMappedMemory_status.
    unfold uintptr, Plan, sampleMMF, Data, sampleBase.
    rewrite wrap_small by lia.
    destruct (Z.eqb_spec (65536 + 1648 + k) 67176); [lia|reflexivity].
Defined.

Lemma Transfer_records_area_witness :
  Transfer (L := sampleLayout) (Plan sampleMMF) sampleHeader3 1 = Ok 67184
  /\ Transfer (L := sampleLayout) (Plan sampleMMF) sampleHeader3 2
     = Ok (67184 + 48).
Proof.
  assert (H0 : 0 <= Plan sampleMMF) by (vm_compute; discriminate).
  assert (Hfit : Plan sampleMMF + sizeof_JobPartPlanHeader (PlanLayout := sampleLayout)
                 + NumTransfers sampleHeader3 * sizeof_JobPartPlanTransfer <= 2 ^ 64)
    by (vm_compute; discriminate).
  assert (Hi : 0 <= 1 < NumTransfers sampleHeader3) by (simpl; lia).
  destruct (Transfer_records_area (L := sampleLayout) (Plan sampleMMF)
              sampleHeader3 1 H0 Hfit Hi) as [p [Hp [_ [_ Hnext]]]].
  assert (Hp' : p = 67184) by (vm_compute in Hp; congruence).
  subst p. split; [exact Hp|]. apply Hnext. simpl. lia.
Defined.

End PlanMemoryExamples.

(** ** The status manager over runs of messages *)

Module StatusRunFacts.

Import common Summary GoFacts Runs.

(** *** Part-created messages *)

Lemma SendJobPartCreatedMsgs_cons (msg : jobPartCreatedMsg)
    (msgs : list jobPartCreatedMsg) (st : SendMsg.jobStatusManager) :
  SendMsg.SendJobPartCreatedMsgs (msg :: msgs) st
  = SendMsg.SendJobPartCreatedMsgs msgs (SendMsg.SendJobPartCreatedMsg msg st).
Proof. reflexivity. Qed.

Lemma SendJobPartCreatedMsg_swap (a b : jobPartCreatedMsg)
    (st : SendMsg.jobStatusManager) :
  SendMsg.SendJobPartCreatedMsg a (SendMsg.SendJobPartCreatedMsg b st)
  = SendMsg.SendJobPartCreatedMsg b (SendMsg.SendJobPartCreatedMsg a st).
Proof.
  destruct st as [s].
  change (SendMsg.mkJstm (Spec.recordPartCreated a (Spec.recordPartCreated b s))
          = SendMsg.mkJstm (Spec.recordPartCreated b (Spec.recordPartCreated a s))).
  unfold Spec.recordPartCreated. simpl.
  do 2 f_equal;
    try (unfold uint32; apply wrap_add_swap);
    try (unfold uint64; apply wrap_add_swap).
  rewrite <- !orb_assoc. f_equal. apply orb_comm.
Qed.

(** Part-created messages may arrive in any order: the manager ends in the
    very same state. *)
Theorem part_created_order_independent (l1 l2 : list jobPartCreatedMsg) :
  Permutation l1 l2 ->
  forall st,
    SendMsg.SendJobPartCreatedMsgs l1 st = SendMsg.SendJobPartCreatedMsgs l2 st.
Proof.
  induction 1 as [|x l1 l2 Hperm IH|x y l|l1 l2 l3 H12 IH12 H23 IH23]; intros st.
  - reflexivity.
  - rewrite !SendJobPartCreatedMsgs_cons. apply IH.
  - rewrite !SendJobPartCreatedMsgs_cons. f_equal. apply SendJobPartCreatedMsg_swap.
  - now rewrite IH12.
Qed.

(** After a run of part-created messages each total is the old total plus
    the sum over the messages, at the width of the counter. *)
Theorem part_created_totals (msgs : list jobPartCreatedMsg) :
  forall st,
    counters_in_range (SendMsg.js st) ->
    let r := SendMsg.js (SendMsg.SendJobPartCreatedMsgs msgs st) in
    let s := SendMsg.js st in
    TotalTransfers r
    = uint32 (TotalTransfers s + fold_right Z.add 0 (map totalTransfers msgs))
    /\ FileTransfers r
       = uint32 (FileTransfers s + fold_right Z.add 0 (map fileTransfers msgs))
    /\ FolderPropertyTransfers r
       = uint32 (FolderPropertyTransfers s
                 + fold_right Z.add 0 (map folderTransfer msgs))
    /\ TotalBytesEnumerated r
       = uint64 (TotalBytesEnumerated s
                 + fold_right Z.add 0 (map totalBytesEnumerated msgs))
    /\ TotalBytesExpected r
       = uint64 (TotalBytesExpected s
                 + fold_right Z.add 0 (map totalBytesEnumerated msgs))
    /\ counters_in_range r.
Proof.
  induction msgs as [|msg msgs IH]; intros st Hr.
  - pose proof Hr as (R1 & R2 & R3 & R4 & R5 & R6 & R7 & R8 & R9).
    simpl. rewrite !Z.add_0_r. unfold uint32, uint64.
    rewrite !wrap_small by assumption. repeat split; tauto.
  - rewrite SendJobPartCreatedMsgs_cons.
    assert (Hr' : counters_in_range
                    (SendMsg.js (SendMsg.SendJobPartCreatedMsg msg st))).
    { destruct Hr as (R1 & R2 & R3 & R4 & R5 & R6 & R7 & R8 & R9).
      unfold counters_in_range. simpl. unfold uint32, uint64.
      repeat split; try tauto; apply wrap_range; lia. }
    specialize (IH _ Hr'). cbv zeta in IH |- *.
    destruct IH as [H1 [H2 [H3 [H4 [H5 H6]]]]].
    rewrite H1, H2, H3, H4, H5. simpl.
    unfold uint32, uint64. rewrite !wrap_add_l, <- !Z.add_assoc.
    repeat split; try reflexivity; apply H6.
Qed.

(** *** Transfer-done messages *)

Section Outcomes.

Context {E : ETransferStatus}.

(** The three tests of the outcomes agree with the bucket the code
    takes. *)
Lemma classify_filters (msg : xferDoneMsg) :
  match Spec.classify (TransferStatus msg) with
  | Spec.Completed =>
      isSuccess msg = true /\ isFailure msg = false /\ isSkip msg = false
  | Spec.FailedBucket =>
      isSuccess msg = false /\ isFailure msg = true /\ isSkip msg = false
  | Spec.SkippedBucket =>
      isSuccess msg = false /\ isFailure msg = false /\ isSkip msg = true
  | Spec.Ignored =>
      isSuccess msg = false /\ isFailure msg = false /\ isSkip msg = false
  end.
Proof.
  pose proof ETransferStatus_distinct as Hd.
  repeat (apply NoDup_cons_iff in Hd; destruct Hd as [? Hd]).
  unfold Spec.classify, Spec.failureVariants, Spec.skipVariants,
    isSuccess, isFailure, isSkip; simpl in *.
  repeat match goal with
  | |- context [?a =? ?b] => destruct (Z.eqb_spec a b); simpl
  end; repeat split; try reflexivity; exfalso; intuition congruence.
Qed.

Lemma SendXferDoneMsg_record (msg : xferDoneMsg) (st : SendMsg.jobStatusManager) :
  SendMsg.SendXferDoneMsg msg st
  = SendMsg.mkJstm (Spec.recordTransferDone msg (SendMsg.js st)).
Proof.
  rewrite <- SendMsgFacts.SendXferDoneMsg_spec.
  now destruct (SendMsg.SendXferDoneMsg msg st).
Qed.

Lemma recordTransferDone_in_range (msg : xferDoneMsg) (s : ListJobSummaryResponse) :
  counters_in_range s -> counters_in_range (Spec.recordTransferDone msg s).
Proof.
  intros (R1 & R2 & R3 & R4 & R5 & R6 & R7 & R8 & R9).
  unfold Spec.recordTransferDone, counters_in_range.
  destruct (Spec.classify (TransferStatus msg)); simpl; unfold uint32, uint64;
    repeat split; try tauto; apply wrap_range; lia.
Qed.

(** After a run of transfer-done messages: the completed, failed and
    skipped counts have grown by the number of outcomes of their kind, the
    transferred bytes by the sizes of the successes (each at the width of
    its counter); the failure list is the old list followed by the failed
    outcomes in the order they arrived, and likewise the skip list. *)
Theorem xfer_done_totals (msgs : list xferDoneMsg) :
  forall st,
    counters_in_range (SendMsg.js st) ->
    let r := SendMsg.js (SendMsg.SendXferDoneMsgs msgs st) in
    let s := SendMsg.js st in
    TransfersCompleted r
    = uint32 (TransfersCompleted s
              + Z.of_nat (List.length (filter isSuccess msgs)))
    /\ TotalBytesTransferred r
       = uint64 (TotalBytesTransferred s + totalSize (filter isSuccess msgs))
    /\ TransfersFailed r
       = uint32 (TransfersFailed s
                 + Z.of_nat (List.length (filter isFailure msgs)))
    /\ FailedTransfers r = FailedTransfers s ++ filter isFailure msgs
    /\ TransfersSkipped r
       = uint32 (TransfersSkipped s
                 + Z.of_nat (List.length (filter isSkip msgs)))
    /\ SkippedTransfers r = SkippedTransfers s ++ filter isSkip msgs.
Proof.
  induction msgs as [|msg msgs IH]; intros st Hr.
  - pose proof Hr as (R1 & R2 & R3 & R4 & R5 & R6 & R7 & R8 & R9).
    simpl. rewrite !Z.add_0_r, !app_nil_r. unfold uint32, uint64.
    rewrite !wrap_small by assumption. repeat split.
  - rewrite SendMsgFacts.SendXferDoneMsgs_cons.
    assert (Hr' : counters_in_range (SendMsg.js (SendMsg.SendXferDoneMsg msg st))).
    { rewrite SendXferDoneMsg_record. now apply recordTransferDone_in_range. }
    specialize (IH _ Hr'). cbv zeta in IH |- *.
    destruct IH as [H1 [H2 [H3 [H4 [H5 H6]]]]].
    rewrite H1, H2, H3, H4, H5, H6. clear H1 H2 H3 H4 H5 H6.
    rewrite SendXferDoneMsg_record. simpl SendMsg.js.
    pose proof (classify_filters msg) as Hc.
    unfold Spec.recordTransferDone. simpl filter.
    destruct (Spec.classify (TransferStatus msg));
      destruct Hc as [Hs [Hf Hk]]; rewrite Hs, Hf, Hk; simpl;
      rewrite <- ?app_assoc; simpl;
      unfold uint32, uint64; rewrite ?wrap_add_l;
      repeat split; f_equal; lia.
Qed.

(** The failed and skipped counts keep matching the lengths of the detail
    lists. *)
Lemma recordTransferDone_counts_match (msg : xferDoneMsg)
    (s : ListJobSummaryResponse) :
  counts_match_details s -> counts_match_details (Spec.recordTransferDone msg s).
Proof.
  unfold counts_match_details, Spec.recordTransferDone. intros [Hf Hs].
  destruct (Spec.classify (TransferStatus msg)); simpl; split;
    try assumption;
    rewrite ?Hf, ?Hs, length_app; simpl;
    unfold uint32; rewrite wrap_add_l; f_equal; lia.
Qed.

(** *** Mixed runs *)

Lemma SendXferDoneMsg_past_part (x : xferDoneMsg) (p : jobPartCreatedMsg)
    (st : SendMsg.jobStatusManager) :
  SendMsg.SendXferDoneMsg x (SendMsg.SendJobPartCreatedMsg p st)
  = SendMsg.SendJobPartCreatedMsg p (SendMsg.SendXferDoneMsg x st).
Proof.
  rewrite !SendXferDoneMsg_record. destruct st as [s].
  change (SendMsg.mkJstm (Spec.recordTransferDone x (Spec.recordPartCreated p s))
          = SendMsg.mkJstm (Spec.recordPartCreated p (Spec.recordTransferDone x s))).
  unfold Spec.recordTransferDone.
  destruct (Spec.classify (TransferStatus x)); reflexivity.
Qed.

Lemma SendXferDoneMsg_past_parts (x : xferDoneMsg) (ps : list jobPartCreatedMsg) :
  forall st,
    SendMsg.SendXferDoneMsg x (SendMsg.SendJobPartCreatedMsgs ps st)
    = SendMsg.SendJobPartCreatedMsgs ps (SendMsg.SendXferDoneMsg x st).
Proof.
  induction ps as [|p ps IH]; intros st; [reflexivity|].
  rewrite !SendJobPartCreatedMsgs_cons, IH. f_equal.
  apply SendXferDoneMsg_past_part.
Qed.

(** Part-created and transfer-done messages do not interfere: a mixed run
    ends in the state reached by the part-created messages of the run
    followed by its transfer-done messages. *)
Theorem sendAll_parts_then_xfers (msgs : list message) :
  forall st,
    sendAll msgs st
    = SendMsg.SendXferDoneMsgs (xfersOf msgs)
        (SendMsg.SendJobPartCreatedMsgs (partsOf msgs) st).
Proof.
  induction msgs as [|[p|x] msgs IH]; intros st; [reflexivity| |].
  - change (sendAll (PartCreated p :: msgs) st)
      with (sendAll msgs (SendMsg.SendJobPartCreatedMsg p st)).
    rewrite IH. reflexivity.
  - change (sendAll (XferDone x :: msgs) st)
      with (sendAll msgs (SendMsg.SendXferDoneMsg x st)).
    rewrite IH. simpl xfersOf. simpl partsOf.
    rewrite SendMsgFacts.SendXferDoneMsgs_cons. f_equal.
    symmetry. apply SendXferDoneMsg_past_parts.
Qed.

Lemma send_counts_match (m : message) (st : SendMsg.jobStatusManager) :
  counts_match_details (SendMsg.js st) ->
  counts_match_details (SendMsg.js (send m st)).
Proof.
  destruct m as [p|x]; simpl.
  - intros H. exact H.
  - rewrite SendXferDoneMsg_record. apply recordTransferDone_counts_match.
Qed.

(** From a summary whose failed and skipped counts match its detail lists
    (the zero summary is one), they match after every run of messages, in
    the stored summary and in every snapshot of it. *)
Theorem counts_match_details_kept (msgs : list message) :
  forall st,
    counts_match_details (SendMsg.js st) ->
    counts_match_details (SendMsg.js (sendAll msgs st))
    /\ (forall jm now,
          counts_match_details
            (fst (SendMsg.ListJobSummary jm now (sendAll msgs st)))).
Proof.
  induction msgs as [|m msgs IH]; intros st H.
  - split; [exact H|]. intros jm now. exact H.
  - change (sendAll (m :: msgs) st) with (sendAll msgs (send m st)).
    apply IH. now apply send_counts_match.
Qed.

End Outcomes.

End StatusRunFacts.

(** ** Snapshots, the pointer revision, and the factory read backwards *)

Module StatusSnapshotFacts.

Import common Summary GoFacts Runs StatusRunFacts.

Lemma SendJobPartCreatedMsgs_flag (msgs : list jobPartCreatedMsg) :
  forall st,
    CompleteJobOrdered (SendMsg.js (SendMsg.SendJobPartCreatedMsgs msgs st))
    = CompleteJobOrdered (SendMsg.js st) || existsb isFinalPart msgs.
Proof.
  induction msgs as [|msg msgs IH]; intros st.
  - simpl. now rewrite orb_false_r.
  - rewrite SendJobPartCreatedMsgs_cons, IH. simpl. now rewrite orb_assoc.
Qed.

Section Outcomes.

Context {E : ETransferStatus}.

Lemma SendXferDoneMsgs_flag (msgs : list xferDoneMsg) :
  forall st,
    CompleteJobOrdered (SendMsg.js (SendMsg.SendXferDoneMsgs msgs st))
    = CompleteJobOrdered (SendMsg.js st).
Proof.
  induction msgs as [|msg msgs IH]; intros st; [reflexivity|].
  rewrite SendMsgFacts.SendXferDoneMsgs_cons, IH, SendXferDoneMsg_record.
  unfold Spec.recordTransferDone.
  destruct (Spec.classify (TransferStatus msg)); reflexivity.
Qed.

(** Snapshots of the [Send...Msg] revision do not pile up and do not
    disturb the accounting of outcomes: a snapshot taken after another one
    is the snapshot that would have been taken without it, and a
    transfer-done message recorded after a snapshot leaves the manager as
    the snapshot taken after the message does. *)
Theorem ListJobSummary_snapshots_compose (jm jm' : jobMgr) (now now' : Z)
    (st : SendMsg.jobStatusManager) :
  SendMsg.ListJobSummary jm now (snd (SendMsg.ListJobSummary jm' now' st))
  = SendMsg.ListJobSummary jm now st
  /\ (forall x,
        SendMsg.SendXferDoneMsg x (snd (SendMsg.ListJobSummary jm now st))
        = snd (SendMsg.ListJobSummary jm now (SendMsg.SendXferDoneMsg x st))).
Proof.
  split; [reflexivity|].
  intros x. rewrite !SendXferDoneMsg_record. destruct st as [s].
  unfold Spec.recordTransferDone.
  destruct (Spec.classify (TransferStatus x)); reflexivity.
Qed.

(** The fully-enumerated flag through a snapshot of the [Send...Msg]
    revision: the snapshot reports it as false whatever was recorded
    before, and after the snapshot the stored flag tells of the final parts
    created since then only. *)
Theorem ListJobSummary_flag_since_snapshot (jm : jobMgr) (now : Z)
    (before since : list message) (st : SendMsg.jobStatusManager) :
  CompleteJobOrdered (fst (SendMsg.ListJobSummary jm now (sendAll before st)))
  = false
  /\ CompleteJobOrdered
       (SendMsg.js (sendAll since
          (snd (SendMsg.ListJobSummary jm now (sendAll before st)))))
     = existsb isFinalPart (partsOf since).
Proof.
  split; [reflexivity|].
  rewrite sendAll_parts_then_xfers, SendXferDoneMsgs_flag,
    SendJobPartCreatedMsgs_flag.
  reflexivity.
Qed.

(** *** The pointer revision *)

(** The methods of the pointer revision fail on a [nil] summary and on
    nothing else: a part-created update and a snapshot panic exactly when
    no summary is installed, a transfer-done update exactly when none is
    installed and the status is one of the six known ones; the panic is
    the [nil] dereference and the manager is left as it was. *)
Theorem SMUpdate_panics_iff_nil (jm : jobMgr) (p : jobPartCreatedMsg)
    (x : xferDoneMsg) (st : SMUpdate.jobStatusManager) :
  (SMUpdate.SMUpdateJobpartCreated p st = (Crash PanicNilDeref, st)
   <-> SMUpdate.js st = None)
  /\ (SMUpdate.ListJobSummary jm st = (Crash PanicNilDeref, st)
      <-> SMUpdate.js st = None)
  /\ (SMUpdate.SMUpdateXferDone x st = (Crash PanicNilDeref, st)
      <-> SMUpdate.js st = None /\ In (TransferStatus x) Spec.knownVariants)
  /\ (forall f st',
        SMUpdate.SMUpdateJobpartCreated p st = (Crash f, st')
        \/ SMUpdate.ListJobSummary jm st = (Crash f, st')
        \/ SMUpdate.SMUpdateXferDone x st = (Crash f, st') ->
        f = PanicNilDeref /\ st' = st).
Proof.
  destruct st as [[s|]].
  - rewrite SMUpdateFacts.SMUpdateJobpartCreated_installed,
      SMUpdateFacts.ListJobSummary_installed,
      SMUpdateFacts.SMUpdateXferDone_installed.
    simpl. split; [split; discriminate|]. split; [split; discriminate|].
    split; [split; [discriminate|intros [? ?]; discriminate]|].
    intros f st' [H|[H|H]]; discriminate.
  - rewrite SMUpdateFacts.SMUpdateJobpartCreated_nil, SMUpdateFacts.ListJobSummary_nil.
    pose proof (classify_filters x) as Hc.
    assert (Hknown : In (TransferStatus x) Spec.knownVariants
                     <-> Spec.classify (TransferStatus x) <> Spec.Ignored).
    { unfold Spec.knownVariants, Spec.failureVariants, Spec.skipVariants,
        isSuccess, isFailure, isSkip in *. simpl in *.
      destruct (Spec.classify (TransferStatus x)); destruct Hc as [Hs [Hf Hk]];
        rewrite ?orb_false_r, ?orb_true_iff, ?orb_false_iff, ?Z.eqb_eq, ?Z.eqb_neq in *;
        split; try congruence; try (intros _; intuition congruence);
        intuition congruence. }
    simpl. split; [tauto|]. split; [tauto|].
    destruct (Spec.classify (TransferStatus x)) eqn:Hcl.
    1-3: rewrite SMUpdateFacts.SMUpdateXferDone_nil by (rewrite Hcl; discriminate).
    1-3: split; [split; [intros _; split; [reflexivity|apply Hknown; discriminate]
                        |reflexivity]|].
    1-3: intros f st' [H|[H|H]]; inversion H; split; reflexivity.
    rewrite SMUpdateFacts.SMUpdateXferDone_ignored by exact Hcl.
    split.
    + split; [discriminate|]. intros [_ Hin]. apply Hknown in Hin. congruence.
    + intros f st' [H|[H|H]]; inversion H; split; reflexivity.
Qed.

Lemma updateAll_cons (m : message) (msgs : list message)
    (st : SMUpdate.jobStatusManager) :
  updateAll (m :: msgs) st
  = SMUpdate.bindM (update m) (fun _ => updateAll msgs) st.
Proof. reflexivity. Qed.

(** With a summary installed the two revisions keep the same accounts:
    a run of messages through the [SMUpdate...] methods never panics and
    leaves the summary the [Send...Msg] methods leave; so a job resumed
    with [InitStatusMgr] on a summary, updated and then listed, reports
    what the other revision holds after [ResurrectSummary] on that summary
    and the same messages. *)
Theorem revisions_agree (msgs : list message) :
  forall s,
    updateAll msgs (SMUpdate.mkJstm (Some s))
    = (Ok tt, SMUpdate.mkJstm (Some (SendMsg.js (sendAll msgs (SendMsg.mkJstm s)))))
    /\ (forall jm st0,
          SMUpdate.bindM (SMUpdate.InitStatusMgr jm (Some s))
            (fun _ => SMUpdate.bindM (updateAll msgs)
               (fun _ => SMUpdate.ListJobSummary jm)) (SMUpdate.mkJstm None)
          = (Ok (SendMsg.js (sendAll msgs (SendMsg.ResurrectSummary s st0))),
             SMUpdate.mkJstm
               (Some (SendMsg.js (sendAll msgs (SendMsg.ResurrectSummary s st0)))))).
Proof.
  assert (Hrun : forall s,
    updateAll msgs (SMUpdate.mkJstm (Some s))
    = (Ok tt, SMUpdate.mkJstm (Some (SendMsg.js (sendAll msgs (SendMsg.mkJstm s)))))).
  { induction msgs as [|m msgs IH]; intros s; [reflexivity|].
    rewrite updateAll_cons. unfold SMUpdate.bindM.
    change (sendAll (m :: msgs) (SendMsg.mkJstm s))
      with (sendAll msgs (send m (SendMsg.mkJstm s))).
    destruct m as [p|x]; simpl update; simpl send.
    - rewrite SMUpdateFacts.SMUpdateJobpartCreated_installed, IH. reflexivity.
    - rewrite SMUpdateFacts.SMUpdateXferDone_installed, IH,
        SendXferDoneMsg_record. reflexivity. }
  intros s. split; [apply Hrun|].
  intros jm st0. unfold SMUpdate.bindM at 1. rewrite SMUpdateFacts.InitStatusMgr_fresh.
  unfold SMUpdate.bindM. rewrite Hrun. reflexivity.
Qed.

End Outcomes.

(** However often [InitStatusMgr] is called, the manager holds the first
    pointer that was not [nil]: an installed summary is never replaced, and
    [nil] arguments before it do not count as an initialisation. *)
Theorem InitStatusMgr_keeps_first (jm : jobMgr)
    (ps : list (option ListJobSummaryResponse)) :
  SMUpdate.js (snd (SMUpdate.forEach (SMUpdate.InitStatusMgr jm) ps
                      (SMUpdate.mkJstm None)))
  = firstInstalled ps
  /\ (forall s,
        SMUpdate.js (snd (SMUpdate.forEach (SMUpdate.InitStatusMgr jm) ps
                            (SMUpdate.mkJstm (Some s))))
        = Some s).
Proof.
  assert (Hkeep : forall s,
    SMUpdate.js (snd (SMUpdate.forEach (SMUpdate.InitStatusMgr jm) ps
                        (SMUpdate.mkJstm (Some s)))) = Some s).
  { intros s. destruct ps as [|p ps]; [reflexivity|].
    simpl SMUpdate.forEach. unfold SMUpdate.bindM at 1.
    rewrite SMUpdateFacts.InitStatusMgr_again. reflexivity. }
  split; [|exact Hkeep].
  clear Hkeep. induction ps as [|[s|] ps IH]; [reflexivity| |].
  - simpl SMUpdate.forEach. unfold SMUpdate.bindM at 1.
    rewrite SMUpdateFacts.InitStatusMgr_fresh. simpl firstInstalled.
    destruct ps as [|p ps]; [reflexivity|].
    simpl SMUpdate.forEach. unfold SMUpdate.bindM at 1.
    rewrite SMUpdateFacts.InitStatusMgr_again. reflexivity.
  - simpl SMUpdate.forEach. unfold SMUpdate.bindM at 1.
    rewrite SMUpdateFacts.InitStatusMgr_fresh. exact IH.
Qed.

(** *** The factory *)

(** The factory's result tells the pair: a routine is returned for its own
    pair only, and [nil] for the two pairs that are not implemented
    only. *)
Theorem computeJobXfer_inverse {F : EFromTo} (fromTo : FromTo) :
  (Xfer.computeJobXfer fromTo = Ok (Some Xfer.BlobToLocalPrologue)
   <-> fromTo = BlobLocal)
  /\ (Xfer.computeJobXfer fromTo = Ok (Some Xfer.LocalToBlockBlob)
      <-> fromTo = LocalBlob)
  /\ (Xfer.computeJobXfer fromTo = Ok None
      <-> fromTo = FileLocal \/ fromTo = LocalFile).
Proof.
  pose proof EFromTo_distinct as Hd.
  repeat (apply NoDup_cons_iff in Hd; destruct Hd as [? Hd]).
  unfold Xfer.computeJobXfer; simpl in *.
  repeat match goal with
  | |- context [?a =? ?b] => destruct (Z.eqb_spec a b); simpl
  end; repeat split; intros; try discriminate; try reflexivity;
    try congruence; try tauto; exfalso; intuition congruence.
Qed.

End StatusSnapshotFacts.

(** ** Runs on the sample data *)

Module StatusRunExamples.

Import common Summary Samples GoFacts Runs StatusRunFacts StatusSnapshotFacts.

Lemma sampleSummary_in_range : counters_in_range sampleSummary.
Proof. unfold counters_in_range. simpl. lia. Qed.

Lemma part_created_order_independent_witness :
  Permutation [partA; partB] [partB; partA]
  /\ SendMsg.SendJobPartCreatedMsgs [partA; partB] (SendMsg.mkJstm sampleSummary)
     = SendMsg.SendJobPartCreatedMsgs [partB; partA] (SendMsg.mkJstm sampleSummary).
Proof.
  assert (Hperm : Permutation [partA; partB] [partB; partA]) by apply perm_swap.
  split; [exact Hperm|].
  exact (part_created_order_independent _ _ Hperm (SendMsg.mkJstm sampleSummary)).
Defined.

Lemma part_created_totals_witness :
  counters_in_range sampleSummary
  /\ TotalTransfers
       (SendMsg.js (SendMsg.SendJobPartCreatedMsgs [partA; partB]
                      (SendMsg.mkJstm sampleSummary)))
     = uint32 (10 + (150 + (50 + 0))).
Proof.
  split; [exact sampleSummary_in_range|].
  exact (proj1 (part_created_totals [partA; partB] (SendMsg.mkJstm sampleSummary)
                  sampleSummary_in_range)).
Defined.

Lemma xfer_done_totals_witness :
  counters_in_range sampleSummary
  /\ FailedTransfers
       (SendMsg.js (SendMsg.SendXferDoneMsgs (E := sampleTransferStatus)
          [sampleDetail (-2) 7; sampleDetail 2 1024; sampleDetail (-5) 9]
          (SendMsg.mkJstm sampleSummary)))
     = [sampleDetail (-1) 10] ++ [sampleDetail (-2) 7; sampleDetail (-5) 9].
Proof.
  split; [exact sampleSummary_in_range|].
  exact (proj1 (proj2 (proj2 (proj2
    (xfer_done_totals (E := sampleTransferStatus)
       [sampleDetail (-2) 7; sampleDetail 2 1024; sampleDetail (-5) 9]
       (SendMsg.mkJstm sampleSummary) sampleSummary_in_range))))).
Defined.

Lemma counts_match_details_kept_witness :
  counts_match_details zeroSummary
  /\ counts_match_details
       (SendMsg.js (sendAll (E := sampleTransferStatus)
          [XferDone (sampleDetail (-2) 7); PartCreated partA;
           XferDone (sampleDetail (-4) 9)]
          (SendMsg.mkJstm zeroSummary))).
Proof.
  assert (H0 : counts_match_details zeroSummary) by (split; reflexivity).
  split; [exact H0|].
  exact (proj1 (counts_match_details_kept (E := sampleTransferStatus)
                  _ (SendMsg.mkJstm zeroSummary) H0)).
Defined.

(** With no summary installed, a failed outcome panics and a progress
    report does not. *)
Lemma SMUpdate_panics_iff_nil_witness :
  SMUpdate.SMUpdateXferDone (E := sampleTransferStatus) (sampleDetail (-1) 7)
    (SMUpdate.mkJstm None)
  = (Crash PanicNilDeref, SMUpdate.mkJstm None)
  /\ SMUpdate.SMUpdateXferDone (E := sampleTransferStatus) (sampleDetail Started 7)
       (SMUpdate.mkJstm None)
     <> (Crash PanicNilDeref, SMUpdate.mkJstm None).
Proof.
  split.
  - apply (proj2 (proj1 (proj2 (proj2
      (SMUpdate_panics_iff_nil (E := sampleTransferStatus) sampleJobMgr partA
         (sampleDetail (-1) 7) (SMUpdate.mkJstm None)))))).
    split; [reflexivity|]. simpl. tauto.
  - intros H.
    apply (proj1 (proj1 (proj2 (proj2
      (SMUpdate_panics_iff_nil (E := sampleTransferStatus) sampleJobMgr partA
         (sampleDetail Started 7) (SMUpdate.mkJstm None)))))) in H.
    destruct H as [_ Hin]. simpl in Hin. unfold Started in Hin. intuition lia.
Defined.

End StatusRunExamples.
